(** * MMessenger: the conversation store and its storage adapter

    A shallow embedding of [ChatManager], [StorageManager] /
    [CloudStorageManager] and of the parts of [MMessengerApp] that drive
    them, followed by the properties of the data-management core.

    Conventions.
    - A JavaScript object with optional fields is a record whose optional
      fields are [option]s: [None] stands for absent, [null] and
      [undefined] alike (all three are falsy and all three are what
      [x || d] replaces by [d]).
    - [localStorage] holds one JSON document per user key.  The store is a
      finite map from user keys to the parsed document; a missing or
      unparsable document is the absent key ([loadUserData] answers [null]
      for both).
    - A method that mutates [this] or the store is a state transformer
      over [World].  A JavaScript exception does not roll anything back,
      so a computation yields an [Outcome] together with the world as it
      was left.
    - Readings of the wall clock ([new Date()], [Date.now()]) are inputs. *)

From Stdlib Require Import ZArith Lia Ascii String.
From stdpp Require Import base option list strings gmap pretty.

Local Open Scope list_scope.

(** ** Data model *)

(** What the code reads off a [Date] object. *)
Record Date := {
  getHours : nat;
  getMinutes : nat;
  toISOString : string
}.

(** [{author, text, time, timestamp, type, fileData, fileName}] *)
Record Message := {
  msg_author : string;
  msg_text : string;
  msg_time : string;
  msg_timestamp : string;
  msg_type : string;
  msg_fileData : option string;
  msg_fileName : option string
}.

Inductive ChatType := favorites | private.

(** A chat object.  Stored documents may lack any field. *)
Record Chat := {
  chat_id : option Z;
  chat_name : option string;
  chat_description : option string;
  chat_type : option ChatType;
  chat_participants : option (list string);
  chat_messages : option (list Message);
  chat_createdAt : option string
}.

(** The third field of a friend entry is [addedAt] in a friends list and
    [sentAt] in a request list. *)
Inductive Stamp := addedAt (iso : string) | sentAt (iso : string).

Record FriendRef := {
  key : string;
  username : string;
  stamp : Stamp
}.

(** The document stored for one user.  An array of chats read back from
    storage may hold [null] entries. *)
Record UserData := {
  ud_username : string;
  ud_chats : option (list (option Chat));
  ud_friends : option (list FriendRef);
  ud_friendRequests : option (list FriendRef);
  ud_sentFriendRequests : option (list FriendRef)
}.

(** The fields of a [ChatManager] instance (besides [storage]). *)
Record ChatManager := {
  chats : list Chat;
  friends : list FriendRef;
  friendRequests : list FriendRef;
  sentFriendRequests : list FriendRef
}.

(** [localStorage]: the stored documents, and whether a write is taken.
    [setItem] throws when the quota is exceeded; when that happens is the
    browser's business, so it is an oracle over the present content, the
    key and the document. *)
Record LocalStorage := {
  items : gmap string UserData;
  quota : gmap string UserData -> string -> UserData -> bool
}.

(** What the controller does to the page. *)
Inductive UIEvent :=
  | Alert (text : string)
  | RenderChatList (cs : list Chat)
  | CloseModal.

(** [MMessengerApp] with its [ChatManager], the store behind it and the
    trace of page effects. *)
Record World := {
  chatManager : ChatManager;
  localStorage : LocalStorage;
  currentUser : option string;
  currentUserKey : option string;
  ui : list UIEvent
}.

Definition set_chatManager (m : ChatManager) (w : World) : World :=
  {| chatManager := m; localStorage := localStorage w;
     currentUser := currentUser w; currentUserKey := currentUserKey w;
     ui := ui w |}.

Definition set_localStorage (ls : LocalStorage) (w : World) : World :=
  {| chatManager := chatManager w; localStorage := ls;
     currentUser := currentUser w; currentUserKey := currentUserKey w;
     ui := ui w |}.

Definition set_items (i : gmap string UserData) (w : World) : World :=
  set_localStorage {| items := i; quota := quota (localStorage w) |} w.

Definition emit (e : UIEvent) (w : World) : World :=
  {| chatManager := chatManager w; localStorage := localStorage w;
     currentUser := currentUser w; currentUserKey := currentUserKey w;
     ui := ui w ++ [e] |}.

Definition set_chats (cs : list Chat) (m : ChatManager) : ChatManager :=
  {| chats := cs; friends := friends m;
     friendRequests := friendRequests m;
     sentFriendRequests := sentFriendRequests m |}.

Definition set_friends (fs : list FriendRef) (m : ChatManager) : ChatManager :=
  {| chats := chats m; friends := fs;
     friendRequests := friendRequests m;
     sentFriendRequests := sentFriendRequests m |}.

Definition set_friendRequests (rs : list FriendRef) (m : ChatManager)
  : ChatManager :=
  {| chats := chats m; friends := friends m;
     friendRequests := rs;
     sentFriendRequests := sentFriendRequests m |}.

Definition set_sentFriendRequests (rs : list FriendRef) (m : ChatManager)
  : ChatManager :=
  {| chats := chats m; friends := friends m;
     friendRequests := friendRequests m;
     sentFriendRequests := rs |}.

Definition set_messages (ms : list Message) (c : Chat) : Chat :=
  {| chat_id := chat_id c; chat_name := chat_name c;
     chat_description := chat_description c; chat_type := chat_type c;
     chat_participants := chat_participants c;
     chat_messages := Some ms; chat_createdAt := chat_createdAt c |}.

(** ** Computations that may throw *)

Inductive Outcome (A : Type) :=
  | Returned (a : A)
  | Threw (e : string).
Arguments Returned {A} a.
Arguments Threw {A} e.

Definition M (A : Type) : Type := World -> Outcome A * World.

#[global] Instance M_ret : MRet M := fun A a w => (Returned a, w).

#[global] Instance M_bind : MBind M := fun A B k m w =>
  match m w with
  | (Returned a, w') => k a w'
  | (Threw e, w') => (Threw e, w')
  end.

Definition throw {A} (e : string) : M A := fun w => (Threw e, w).

(** [try { body } catch (error) { handler }] *)
Definition try_catch {A} (body : M A) (handler : string -> M A) : M A :=
  fun w =>
    match body w with
    | (Returned a, w') => (Returned a, w')
    | (Threw e, w') => handler e w'
    end.

Definition get : M World := fun w => (Returned w, w).
Definition modify (f : World -> World) : M unit := fun w => (Returned tt, f w).

(** [this.chatManager] seen from the controller, [this] seen from the
    manager's own methods. *)
Definition this : M ChatManager := fun w => (Returned (chatManager w), w).
Definition update (f : ChatManager -> ChatManager) : M unit :=
  modify (fun w => set_chatManager (f (chatManager w)) w).

(** ** The JavaScript built-ins the code relies on *)

Module JS.

(** Strings are UTF-8 byte strings.  These are the encodings of the code
    points that [String.prototype.trim] strips (WhiteSpace and
    LineTerminator of the language standard): U+0009 to U+000D, U+0020,
    U+00A0, U+1680, U+2000 to U+200A, U+2028, U+2029, U+202F, U+205F,
    U+3000 and U+FEFF. *)
Definition whitespace : list (list ascii) :=
  fmap (M := list) ascii_of_nat <$>
    [ [9]; [10]; [11]; [12]; [13]; [32];
      [194; 160];
      [225; 154; 128];
      [226; 128; 128]; [226; 128; 129]; [226; 128; 130]; [226; 128; 131];
      [226; 128; 132]; [226; 128; 133]; [226; 128; 134]; [226; 128; 135];
      [226; 128; 136]; [226; 128; 137]; [226; 128; 138];
      [226; 128; 168]; [226; 128; 169]; [226; 128; 175];
      [226; 129; 159];
      [227; 128; 128];
      [239; 187; 191] ].

Fixpoint strip_prefix (p s : list ascii) : option (list ascii) :=
  match p, s with
  | [], _ => Some s
  | _ :: _, [] => None
  | a :: p', b :: s' => if decide (a = b) then strip_prefix p' s' else None
  end.

(** Removes one leading code point out of [ws], if there is one. *)
Fixpoint strip_one (ws : list (list ascii)) (s : list ascii)
  : option (list ascii) :=
  match ws with
  | [] => None
  | p :: ws' =>
      match strip_prefix p s with
      | Some s' => Some s'
      | None => strip_one ws' s
      end
  end.

Fixpoint strip_leading (fuel : nat) (ws : list (list ascii))
  (s : list ascii) : list ascii :=
  match fuel with
  | O => s
  | S fuel' =>
      match strip_one ws s with
      | Some s' => strip_leading fuel' ws s'
      | None => s
      end
  end.

Definition trimStart (s : list ascii) : list ascii :=
  strip_leading (length s) whitespace s.

Definition trimEnd (s : list ascii) : list ascii :=
  reverse (strip_leading (length s) (reverse <$> whitespace) (reverse s)).

(** [s.trim()] *)
Definition trim (s : string) : string :=
  string_of_list_ascii (trimEnd (trimStart (list_ascii_of_string s))).

(** Truthiness of a string, of a number read from JSON (never [NaN]), and
    of optional fields holding them. *)
Definition truthy_string (s : string) : bool :=
  if decide (s = EmptyString) then false else true.

Definition truthy_number (z : Z) : bool :=
  if decide (z = 0%Z) then false else true.

Definition truthy_opt {A} (t : A -> bool) (o : option A) : bool :=
  match o with
  | Some a => t a
  | None => false
  end.

(** [a.slice(-n)]: the last [n] elements, all of them when there are
    fewer. *)
Definition slice_last {A} (n : nat) (a : list A) : list A :=
  drop (length a - n) a.

(** [a.some(p)], and [a.push(x)] as the array it leaves *)
Definition some {A} (p : A -> bool) (a : list A) : bool := existsb p a.
Definition push {A} (x : A) (a : list A) : list A := a ++ [x].

(** [s.padStart(n, c)] for a one-character pad *)
Definition padStart (n : nat) (c : ascii) (s : string) : string :=
  string_of_list_ascii (replicate (n - String.length s) c) +:+ s.

(** [n.toString()] of a non-negative integer *)
Definition toString (n : nat) : string := pretty n.

(** [s.includes(sub)]: [sub] occurs in [s]. *)
Fixpoint includes (s sub : string) : bool :=
  String.prefix sub s
  || match s with
     | EmptyString => false
     | String _ s' => includes s' sub
     end.

(** [s.charAt(i)]: the character at [i], the empty string out of range. *)
Definition charAt (s : string) (i : nat) : string :=
  match String.get i s with
  | Some c => String c EmptyString
  | None => EmptyString
  end.

End JS.

(** ** StorageManager (delegating to CloudStorageManager) *)

(** [saveUserData]: [setItem] of the serialized document; a failure is
    rethrown as ['Failed to save user data'].  [saveToCloud] only logs. *)
Definition saveUserData (userKey : string) (userData : UserData) : M unit :=
  fun w =>
    let ls := localStorage w in
    if quota ls (items ls) userKey userData
    then (Returned tt, set_items (<[userKey := userData]> (items ls)) w)
    else (Threw "Failed to save user data", w).

(** [loadUserData]: the parsed document or [null]. *)
Definition loadUserData (userKey : string) : M (option UserData) :=
  fun w => (Returned (items (localStorage w) !! userKey), w).

(** [generateUniqueKey]: sixteen characters drawn from [chars];
    [random i] is [Math.floor(Math.random() * chars.length)] of round [i]. *)
Definition chars : string :=
  "ABCDEFGHIJKLMNOPQRSTUVWXYZabcdefghijklmnopqrstuvwxyz0123456789".

Definition generateUniqueKey (random : nat -> nat) : string :=
  foldl (fun result i => result +:+ JS.charAt chars (random i))
    EmptyString (seq 0 16).

(** The user keys under which [localStorage] holds an entry, as the loops
    over [localStorage.key(i)] meet them once the prefix is taken off.  The
    order is the browser's; it is taken to be that of [map_to_list].  (The
    entry of the current-user pointer starts with the prefix too; what
    [loadUserData] reads back for it is a bare key, never an object with a
    [username], so the loops pass over it.) *)
Definition storedKeys (ls : LocalStorage) : list string :=
  (map_to_list (items ls)).*1.

(** [getUserKeyByUsername]: the first key whose document carries the
    name. *)
Fixpoint firstKeyByUsername (ls : LocalStorage) (username : string)
  (keys : list string) : option string :=
  match keys with
  | [] => None
  | userKey :: keys' =>
      match items ls !! userKey with
      | Some userData =>
          if bool_decide (ud_username userData = username)
          then Some userKey
          else firstKeyByUsername ls username keys'
      | None => firstKeyByUsername ls username keys'
      end
  end.

Definition getUserKeyByUsername (username : string) : M (option string) :=
  w ← get;
  mret (firstKeyByUsername (localStorage w) username
          (storedKeys (localStorage w))).

(** [{username, key, searchKey}] *)
Record User := {
  user_username : string;
  user_key : string;
  user_searchKey : string
}.

Section Users.

(** [String.prototype.toLowerCase], as the engine provides it. *)
Variable toLowerCase : string -> string.

(** [getAllUsersFromLocalStorage] (and [getAllUsers], which returns it):
    the stored users that have a name. *)
Fixpoint usersOf (ls : LocalStorage) (keys : list string) : list User :=
  match keys with
  | [] => []
  | userKey :: keys' =>
      match items ls !! userKey with
      | Some userData =>
          if JS.truthy_string (ud_username userData)
          then {| user_username := ud_username userData;
                  user_key := userKey;
                  user_searchKey := toLowerCase (ud_username userData) |}
               :: usersOf ls keys'
          else usersOf ls keys'
      | None => usersOf ls keys'
      end
  end.

Definition getAllUsers : M (list User) :=
  w ← get;
  mret (usersOf (localStorage w) (storedKeys (localStorage w))).

End Users.

(** ** ChatManager *)

(** [initializeChats]: the Favorites chat. *)
Definition initializeChats : list Chat :=
  [ {| chat_id := Some 1%Z;
       chat_name := Some "Избранное";
       chat_description := None;
       chat_type := Some favorites;
       chat_participants := None;
       chat_messages := Some [];
       chat_createdAt := None |} ].

(** [chat => chat && chat.id && chat.name] *)
Definition valid_chat (chat : option Chat) : bool :=
  match chat with
  | Some c =>
      JS.truthy_opt JS.truthy_number (chat_id c)
      && JS.truthy_opt JS.truthy_string (chat_name c)
  | None => false
  end.

(** The objects of an array of which [valid_chat] has thrown out the nulls. *)
Definition objects (cs : list (option Chat)) : list Chat := omap id cs.

Definition loadChats (userKey : string) : M unit :=
  userData ← loadUserData userKey;
  match userData with
  | Some userData =>
      let chats0 := default (Some <$> initializeChats) (ud_chats userData) in
      let chats1 := objects (List.filter valid_chat chats0) in
      update (fun _ =>
        {| chats := if decide (length chats1 = 0)
                    then initializeChats else chats1;
           friends := default [] (ud_friends userData);
           friendRequests := default [] (ud_friendRequests userData);
           sentFriendRequests :=
             default [] (ud_sentFriendRequests userData) |})
  | None =>
      update (fun _ =>
        {| chats := initializeChats;
           friends := [];
           friendRequests := [];
           sentFriendRequests := [] |})
  end.

Definition saveChats (userKey username : string) : M unit :=
  m ← this;
  saveUserData userKey
    {| ud_username := username;
       ud_chats := Some (Some <$> chats m);
       ud_friends := Some (friends m);
       ud_friendRequests := Some (friendRequests m);
       ud_sentFriendRequests := Some (sentFriendRequests m) |}.

(** [createChat(name, description)]; [dateNow] is [Date.now()], [now] the
    [new Date()] of [createdAt]. *)
Definition createChat (dateNow : Z) (now : Date) (name description : string)
  : M Chat :=
  let newChat :=
    {| chat_id := Some dateNow;
       chat_name := Some (JS.trim name);
       chat_description := Some (JS.trim description);
       chat_type := None;
       chat_participants := None;
       chat_messages := Some [];
       chat_createdAt := Some (toISOString now) |} in
  update (fun m => set_chats (JS.push newChat (chats m)) m);;
  mret newChat.

Definition createPrivateChat (dateNow : Z) (now : Date)
  (friendKey friendUsername currentUserKey : string) : M Chat :=
  let newChat :=
    {| chat_id := Some dateNow;
       chat_name := Some friendUsername;
       chat_description := None;
       chat_type := Some private;
       chat_participants := Some [currentUserKey; friendKey];
       chat_messages := Some [];
       chat_createdAt := Some (toISOString now) |} in
  update (fun m => set_chats (JS.push newChat (chats m)) m);;
  mret newChat.

(** [addMessage(chat, author, text, type, fileData, fileName)] touches the
    object [chat] and nothing of [this]: it is given as the message built
    and the object as it is left. *)
Definition addMessage (now : Date) (chat : Chat) (author text type : string)
  (fileData fileName : option string) : Message * Chat :=
  let messages0 := default [] (chat_messages chat) in
  let time :=
    JS.padStart 2 "0" (JS.toString (getHours now)) +:+ ":" +:+
    JS.padStart 2 "0" (JS.toString (getMinutes now)) in
  let message :=
    {| msg_author := author;
       msg_text := JS.trim text;
       msg_time := time;
       msg_timestamp := toISOString now;
       msg_type := type;
       msg_fileData := fileData;
       msg_fileName := fileName |} in
  let messages1 := JS.push message messages0 in
  let messages2 :=
    if decide (1000 < length messages1)
    then JS.slice_last 1000 messages1 else messages1 in
  (message, set_messages messages2 chat).

(** [this.addMessage(this.chats[i], ...)]: the chat is the object at
    position [i] of the chat list, which is where the mutation shows.
    Out of range, [this.chats[i]] is [undefined] and reading its
    [messages] throws. *)
Definition addMessageTo (i : nat) (now : Date) (author text type : string)
  (fileData fileName : option string) : M Message :=
  m ← this;
  match chats m !! i with
  | Some chat =>
      let r := addMessage now chat author text type fileData fileName in
      update (fun m => set_chats (<[i := r.2]> (chats m)) m);;
      mret r.1
  | None => throw "TypeError: Cannot read properties of undefined"
  end.

Definition addFriend (now : Date) (friendKey friendUsername : string)
  : M bool :=
  m ← this;
  if JS.some (fun friend => bool_decide (key friend = friendKey)) (friends m)
  then mret false
  else
    update (fun m =>
      set_friends
        (JS.push {| key := friendKey;
                    username := friendUsername;
                    stamp := addedAt (toISOString now) |} (friends m)) m);;
    mret true.

(** [sendFriendRequest(targetUserKey, currentUserKey, currentUsername)];
    [now1] and [now2] are its two readings of the clock. *)
Definition sendFriendRequest (now1 now2 : Date)
  (targetUserKey currentUserKey currentUsername : string) : M bool :=
  m ← this;
  if JS.some (fun req => bool_decide (key req = targetUserKey))
       (sentFriendRequests m)
  then mret false
  else
    update (fun m =>
      set_sentFriendRequests
        (JS.push {| key := targetUserKey;
                    username := currentUsername;
                    stamp := sentAt (toISOString now1) |}
           (sentFriendRequests m)) m);;
    targetUserData ← loadUserData targetUserKey;
    match targetUserData with
    | Some t =>
        let requests0 := default [] (ud_friendRequests t) in
        saveUserData targetUserKey
          {| ud_username := ud_username t;
             ud_chats := ud_chats t;
             ud_friends := ud_friends t;
             ud_friendRequests :=
               Some (JS.push {| key := currentUserKey;
                                username := currentUsername;
                                stamp := sentAt (toISOString now2) |}
                       requests0);
             ud_sentFriendRequests := ud_sentFriendRequests t |}
    | None => mret tt
    end;;
    mret true.

Definition acceptFriendRequest (now1 now2 : Date)
  (requesterKey requesterUsername currentUserKey currentUsername : string)
  : M unit :=
  addFriend now1 requesterKey requesterUsername;;
  update (fun m =>
    set_friendRequests
      (List.filter (fun req => negb (bool_decide (key req = requesterKey)))
         (friendRequests m)) m);;
  requesterData ← loadUserData requesterKey;
  match requesterData with
  | Some r =>
      let sent1 :=
        List.filter (fun req => negb (bool_decide (key req = currentUserKey)))
          <$> ud_sentFriendRequests r in
      let friends0 := default [] (ud_friends r) in
      let friends1 :=
        if JS.some (fun f => bool_decide (key f = currentUserKey)) friends0
        then friends0
        else JS.push {| key := currentUserKey;
                        username := currentUsername;
                        stamp := addedAt (toISOString now2) |} friends0 in
      saveUserData requesterKey
        {| ud_username := ud_username r;
           ud_chats := ud_chats r;
           ud_friends := Some friends1;
           ud_friendRequests := ud_friendRequests r;
           ud_sentFriendRequests := sent1 |}
  | None => mret tt
  end.

Definition rejectFriendRequest (requesterKey : string) : M unit :=
  update (fun m =>
    set_friendRequests
      (List.filter (fun req => negb (bool_decide (key req = requesterKey)))
         (friendRequests m)) m).

(** [chat => chat.type === 'private' && chat.participants &&
    chat.participants.includes(friendKey)] *)
Definition private_with (friendKey : string) (chat : Chat) : bool :=
  match chat_type chat with
  | Some private =>
      match chat_participants chat with
      | Some participants => bool_decide (friendKey ∈ participants)
      | None => false
      end
  | _ => false
  end.

(** [findPrivateChat(friendKey)]: [this.chats.find(...)] *)
Definition findPrivateChat (friendKey : string) : M (option Chat) :=
  m ← this;
  mret (List.find (private_with friendKey) (chats m)).

(** [addUserByKey(userKey, username)] *)
Definition addUserByKey (now : Date) (userKey username : string) : M bool :=
  try_catch
    (userData ← loadUserData userKey;
     match userData with
     | None => mret false
     | Some _ => addFriend now userKey username
     end)
    (fun error => mret false).

Section Search.

Variable toLowerCase : string -> string.

(** [searchUsers(searchTerm, currentUserKey)] *)
Definition searchUsers (searchTerm currentUserKey : string) : M (list User) :=
  allUsers ← getAllUsers toLowerCase;
  mret (List.filter
          (fun user =>
             negb (bool_decide (user_key user = currentUserKey))
             && JS.includes (toLowerCase (user_username user))
                  (toLowerCase searchTerm))
          allUsers).

End Search.

(** ** MMessengerApp: the controller methods that persist a mutation *)

Module MMessengerApp.

(** [if (this.currentUserKey && this.currentUser) saveChats(...)] *)
Definition saveUserData : M unit :=
  w ← get;
  match currentUserKey w, currentUser w with
  | Some userKey, Some user =>
      if JS.truthy_string userKey && JS.truthy_string user
      then saveChats userKey user
      else mret tt
  | _, _ => mret tt
  end.

(** [createChat()]; [nameInput] and [descInput] are the values of the two
    form fields. *)
Definition createChat (dateNow : Z) (now : Date) (nameInput descInput : string)
  : M unit :=
  let name := JS.trim nameInput in
  if negb (JS.truthy_string name)
  then modify (emit (Alert "Введите название канала!"))
  else
    try_catch
      (createChat dateNow now name descInput;;
       saveUserData;;
       m ← this;
       modify (emit (RenderChatList (chats m)));;
       modify (emit CloseModal))
      (fun error =>
         modify (emit
           (Alert "Ошибка при создании канала. Попробуйте еще раз."))).

(** The two session fields are strings in the controller, [''] while
    nobody is signed in; [None] is read as that empty string. *)
Definition text_of (o : option string) : string := default EmptyString o.

(** The controller methods below also repaint parts of the page (search
    results, request list, badge, button feedback); of the page only the
    alerts are traced for them. *)

(** [sendFriendRequestByName(username)] *)
Definition sendFriendRequestByName (now1 now2 : Date) (username : string)
  : M unit :=
  userKey ← getUserKeyByUsername username;
  if negb (JS.truthy_opt JS.truthy_string userKey)
  then modify (emit (Alert "Пользователь не найден!"))
  else
    let userKey := text_of userKey in
    w ← get;
    if bool_decide (userKey = text_of (currentUserKey w))
    then modify (emit (Alert "Нельзя отправить заявку самому себе!"))
    else
      sent ← sendFriendRequest now1 now2 userKey
               (text_of (currentUserKey w)) (text_of (currentUser w));
      if (sent : bool)
      then saveUserData
      else modify (emit (Alert "Заявка уже отправлена этому пользователю!")).

(** [acceptFriendRequest(requesterKey, requesterUsername)] *)
Definition acceptFriendRequest (now1 now2 : Date)
  (requesterKey requesterUsername : string) : M unit :=
  w ← get;
  acceptFriendRequest now1 now2 requesterKey requesterUsername
    (text_of (currentUserKey w)) (text_of (currentUser w));;
  saveUserData;;
  loadChats (text_of (currentUserKey w));;
  modify (emit (Alert (requesterUsername +:+ " добавлен в друзья!"))).

(** [rejectFriendRequest(requesterKey)] *)
Definition rejectFriendRequest (requesterKey : string) : M unit :=
  w ← get;
  rejectFriendRequest requesterKey;;
  saveUserData;;
  loadChats (text_of (currentUserKey w)).

(** [addFriend(userKey, username)] *)
Definition addFriend (now : Date) (userKey username : string) : M unit :=
  w ← get;
  if bool_decide (userKey = text_of (currentUserKey w))
  then modify (emit (Alert "Нельзя добавить самого себя в друзья!"))
  else
    added ← addFriend now userKey username;
    if (added : bool) then saveUserData else mret tt.

(** [startChatWithFriend(friendKey, friendUsername)], as far as the chat
    it hands to [openChat]. *)
Definition startChatWithFriend (dateNow : Z) (now : Date)
  (friendKey friendUsername : string) : M Chat :=
  found ← findPrivateChat friendKey;
  match found with
  | Some chat => mret chat
  | None =>
      w ← get;
      chat ← createPrivateChat dateNow now friendKey friendUsername
               (text_of (currentUserKey w));
      saveUserData;;
      mret chat
  end.

End MMessengerApp.

(** ** Vocabulary of the statements *)

(** The entries of a friend or request list that carry the key [k]. *)
Definition count_key (k : string) (l : list FriendRef) : nat :=
  length (List.filter (fun f => bool_decide (key f = k)) l).

(** The document stored under a key, if there is one. *)
Definition stored (w : World) (k : string) : option UserData :=
  items (localStorage w) !! k.

(** Outcome and final world of a run. *)
Definition outcome {A} (r : Outcome A * World) : Outcome A := r.1.
Definition world {A} (r : Outcome A * World) : World := r.2.

(** The messages of a chat object, none when the field is missing. *)
Definition messages_of (c : Chat) : list Message :=
  default [] (chat_messages c).

(** The stored state offers [loadChats] no usable chat: there is no
    document, or it has no [chats] field, or the list is empty or holds
    only entries that [valid_chat] rejects. *)
Definition no_valid_chat (w : World) (userKey : string) : bool :=
  match stored w userKey with
  | None => true
  | Some d =>
      match ud_chats d with
      | None => true
      | Some cs => forallb (fun c => negb (valid_chat c)) cs
      end
  end.

(** The arguments of one call of [addMessage], with the clock reading. *)
Record Call := {
  call_now : Date;
  call_author : string;
  call_text : string;
  call_type : string;
  call_fileData : option string;
  call_fileName : option string
}.

(** Successive calls of [addMessage] on one chat object: the messages the
    calls returned, in order, and the object at the end. *)
Fixpoint addMessages (chat : Chat) (calls : list Call)
  : list Message * Chat :=
  match calls with
  | [] => ([], chat)
  | c :: calls' =>
      let r := addMessage (call_now c) chat (call_author c) (call_text c)
                 (call_type c) (call_fileData c) (call_fileName c) in
      let rs := addMessages r.2 calls' in
      (r.1 :: rs.1, rs.2)
  end.

(** A friend or request list is deduplicated by key. *)
Definition deduplicated (l : list FriendRef) : Prop := NoDup (key <$> l).

(** Friends and sent requests are deduplicated by key, in the manager and
    in every stored document. *)
Definition document_ok (d : UserData) : Prop :=
  deduplicated (default [] (ud_friends d))
  /\ deduplicated (default [] (ud_sentFriendRequests d)).

Definition consistent (w : World) : Prop :=
  deduplicated (friends (chatManager w))
  /\ deduplicated (sentFriendRequests (chatManager w))
  /\ forall k d, stored w k = Some d -> document_ok d.

(** The calls a client can make on a [ChatManager], with the clock
    readings each one takes. *)
Inductive Method :=
  | LoadChats (userKey : string)
  | SaveChats (userKey username : string)
  | CreateChat (dateNow : Z) (now : Date) (name description : string)
  | CreatePrivateChat (dateNow : Z) (now : Date)
      (friendKey friendUsername currentUserKey : string)
  | AddMessage (i : nat) (now : Date) (author text type : string)
      (fileData fileName : option string)
  | AddFriend (now : Date) (friendKey friendUsername : string)
  | SendFriendRequest (now1 now2 : Date)
      (targetUserKey currentUserKey currentUsername : string)
  | AcceptFriendRequest (now1 now2 : Date)
      (requesterKey requesterUsername currentUserKey currentUsername : string)
  | RejectFriendRequest (requesterKey : string).

(** The world a call leaves, whether it returned or threw. *)
Definition call (m : Method) (w : World) : World :=
  match m with
  | LoadChats userKey => world (loadChats userKey w)
  | SaveChats userKey username => world (saveChats userKey username w)
  | CreateChat dateNow now name description =>
      world (createChat dateNow now name description w)
  | CreatePrivateChat dateNow now friendKey friendUsername currentUserKey =>
      world (createPrivateChat dateNow now friendKey friendUsername
               currentUserKey w)
  | AddMessage i now author text type fileData fileName =>
      world (addMessageTo i now author text type fileData fileName w)
  | AddFriend now friendKey friendUsername =>
      world (addFriend now friendKey friendUsername w)
  | SendFriendRequest now1 now2 targetUserKey currentUserKey
      currentUsername =>
      world (sendFriendRequest now1 now2 targetUserKey currentUserKey
               currentUsername w)
  | AcceptFriendRequest now1 now2 requesterKey requesterUsername
      currentUserKey currentUsername =>
      world (acceptFriendRequest now1 now2 requesterKey requesterUsername
               currentUserKey currentUsername w)
  | RejectFriendRequest requesterKey =>
      world (rejectFriendRequest requesterKey w)
  end.

(** Worlds reached from a fresh manager over an empty store by calls and
    by new sessions: the page is loaded again over the store as it is,
    with a fresh manager, for whichever user. *)
Inductive reachable : World -> Prop :=
  | reachable_new quota0 user userKey :
      reachable
        {| chatManager :=
             {| chats := []; friends := []; friendRequests := [];
                sentFriendRequests := [] |};
           localStorage := {| items := ∅; quota := quota0 |};
           currentUser := user; currentUserKey := userKey; ui := [] |}
  | reachable_call m w : reachable w -> reachable (call m w)
  | reachable_session w user userKey :
      reachable w ->
      reachable
        {| chatManager :=
             {| chats := []; friends := []; friendRequests := [];
                sentFriendRequests := [] |};
           localStorage := localStorage w;
           currentUser := user; currentUserKey := userKey; ui := [] |}.

(** A chat holds no more messages than the cap. *)
Definition capped (c : Chat) : Prop := length (messages_of c) <= 1000.

(** Every chat is capped, in memory and in every stored document. *)
Definition bounded (w : World) : Prop :=
  Forall capped (chats (chatManager w))
  /\ forall k d cs,
       stored w k = Some d -> ud_chats d = Some cs ->
       Forall capped (objects cs).

(** The private chats of a list that have [friendKey] among their
    participants. *)
Definition private_chats_with (friendKey : string) (cs : list Chat)
  : list Chat :=
  List.filter (private_with friendKey) cs.

(** A clock time as the messages show it: two digits, a colon, two
    digits. *)
Definition digit (c : ascii) : bool :=
  bool_decide (48 <= nat_of_ascii c <= 57).

Definition clock_time (s : string) : bool :=
  match s with
  | String h1 (String h2 (String c (String m1 (String m2 EmptyString)))) =>
      digit h1 && digit h2 && bool_decide (c = ":"%char)
      && digit m1 && digit m2
  | _ => false
  end.

(** A letter A to Z or a to z, or a digit. *)
Definition alphanumeric (c : ascii) : bool :=
  digit c
  || bool_decide (65 <= nat_of_ascii c <= 90)
  || bool_decide (97 <= nat_of_ascii c <= 122).

(** ** Sample states *)

Module Sample.

Definition noon : Date :=
  {| getHours := 12; getMinutes := 5;
     toISOString := "2024-03-01T12:05:00.000Z" |}.

Definition alice_key : string := "aLiCe0123456789A".
Definition bob_key : string := "bOb0123456789BcD".

(** A store that takes every write, and one that is full. *)
Definition roomy (i : gmap string UserData) : LocalStorage :=
  {| items := i; quota := fun _ _ _ => true |}.
Definition full (i : gmap string UserData) : LocalStorage :=
  {| items := i; quota := fun _ _ _ => false |}.

(** [new ChatManager(storage)] *)
Definition new_manager : ChatManager :=
  {| chats := []; friends := []; friendRequests := [];
     sentFriendRequests := [] |}.

(** A manager as [loadChats] leaves it for a new user. *)
Definition loaded_manager : ChatManager :=
  {| chats := initializeChats; friends := []; friendRequests := [];
     sentFriendRequests := [] |}.

(** Bob's document: he has sent Alice a request. *)
Definition bob_data : UserData :=
  {| ud_username := "Bob";
     ud_chats := Some (Some <$> initializeChats);
     ud_friends := Some [];
     ud_friendRequests := Some [];
     ud_sentFriendRequests :=
       Some [ {| key := alice_key; username := "Bob";
                 stamp := sentAt "2024-03-01T11:00:00.000Z" |} ] |}.

(** A document whose chat list holds a [null], a chat without id and a
    chat without name. *)
Definition broken_data : UserData :=
  {| ud_username := "Carol";
     ud_chats :=
       Some [ None;
              Some {| chat_id := None; chat_name := Some "x";
                      chat_description := None; chat_type := None;
                      chat_participants := None; chat_messages := None;
                      chat_createdAt := None |};
              Some {| chat_id := Some 7%Z; chat_name := None;
                      chat_description := None; chat_type := None;
                      chat_participants := None; chat_messages := None;
                      chat_createdAt := None |} ];
     ud_friends := None;
     ud_friendRequests := None;
     ud_sentFriendRequests := None |}.

(** Alice signed in, with the manager [m] and the store [ls]. *)
Definition alice (m : ChatManager) (ls : LocalStorage) : World :=
  {| chatManager := m; localStorage := ls;
     currentUser := Some "Alice"; currentUserKey := Some alice_key;
     ui := [] |}.

(** Alice holding Bob's request, Bob's document in a store with room. *)
Definition alice_with_request : World :=
  alice
    {| chats := initializeChats; friends := [];
       friendRequests :=
         [ {| key := bob_key; username := "Bob";
              stamp := sentAt "2024-03-01T11:00:00.000Z" |} ];
       sentFriendRequests := [] |}
    (roomy {[ bob_key := bob_data ]}).

Definition empty_chat : Chat :=
  {| chat_id := Some 1709294700000%Z; chat_name := Some "Team";
     chat_description := Some EmptyString; chat_type := None;
     chat_participants := None; chat_messages := Some [];
     chat_createdAt := Some "2024-03-01T12:05:00.000Z" |}.

(** The [n]-th of a run of calls by Alice, the text telling which. *)
Definition nth_call (n : nat) : Call :=
  {| call_now := noon; call_author := "Alice"; call_text := pretty n;
     call_type := "text"; call_fileData := None; call_fileName := None |}.

(** Alice's document as [saveChats] writes it for a new user. *)
Definition alice_data : UserData :=
  {| ud_username := "Alice";
     ud_chats := Some (Some <$> initializeChats);
     ud_friends := Some [];
     ud_friendRequests := Some [];
     ud_sentFriendRequests := Some [] |}.

(** Alice signed in and loaded; her own and Bob's documents stored. *)
Definition alice_and_bob : World :=
  alice loaded_manager
    (roomy {[ alice_key := alice_data; bob_key := bob_data ]}).

(** Lower case of the letters A to Z, other bytes kept. *)
Definition lower_ascii (c : ascii) : ascii :=
  let n := nat_of_ascii c in
  if bool_decide (65 <= n <= 90) then ascii_of_nat (n + 32) else c.

Fixpoint lower (s : string) : string :=
  match s with
  | EmptyString => EmptyString
  | String c s' => String (lower_ascii c) (lower s')
  end.

(** A private chat of Alice with Bob. *)
Definition chat_with_bob : Chat :=
  {| chat_id := Some 1709294700000%Z; chat_name := Some "Bob";
     chat_description := None; chat_type := Some private;
     chat_participants := Some [alice_key; bob_key];
     chat_messages := Some [];
     chat_createdAt := Some "2024-03-01T12:05:00.000Z" |}.

End Sample.

(** * Properties *)

(** ** Examples of the built-ins *)

Example trim_examples :
  JS.trim "  Team 	" = "Team" /\ JS.trim "   " = EmptyString
  /\ JS.trim " a b " = "a b".
Proof. repeat split; reflexivity. Qed.

Example padStart_examples :
  JS.padStart 2 "0" (JS.toString 7) = "07"
  /\ JS.padStart 2 "0" (JS.toString 17) = "17".
Proof. split; reflexivity. Qed.

Example slice_last_examples :
  JS.slice_last 2 [1; 2; 3] = [2; 3] /\ JS.slice_last 5 [1; 2; 3] = [1; 2; 3].
Proof. split; reflexivity. Qed.

(** ** Lists of entries and their keys *)

Lemma some_key_true k (l : list FriendRef) :
  JS.some (fun f => bool_decide (key f = k)) l = true <-> k ∈ key <$> l.
Proof.
  unfold JS.some. rewrite existsb_exists, list_elem_of_fmap. split.
  - intros (f & Hin & Hk). exists f. apply bool_decide_eq_true in Hk.
    split; [done | by apply list_elem_of_In].
  - intros (f & -> & Hin). exists f. split; [by apply list_elem_of_In |].
    by apply bool_decide_eq_true.
Qed.

Lemma some_key_false k (l : list FriendRef) :
  JS.some (fun f => bool_decide (key f = k)) l = false <-> k ∉ key <$> l.
Proof.
  rewrite <- some_key_true. destruct (JS.some _ l); split; congruence.
Qed.

Lemma count_key_app k (l1 l2 : list FriendRef) :
  count_key k (l1 ++ l2) = count_key k l1 + count_key k l2.
Proof. unfold count_key. by rewrite List.filter_app, length_app. Qed.

Lemma count_key_zero k (l : list FriendRef) :
  count_key k l = 0 <-> k ∉ key <$> l.
Proof.
  unfold count_key. induction l as [| f l IH]; simpl.
  - split; [intros _; apply not_elem_of_nil | done].
  - rewrite not_elem_of_cons. case_bool_decide; simpl.
    + split; [lia | intros [Hne _]; by destruct Hne].
    + rewrite IH. split; [intros ?; split; [congruence | done] | by intros [_ ?]].
Qed.

Lemma count_key_pos k (l : list FriendRef) :
  0 < count_key k l <-> k ∈ key <$> l.
Proof.
  destruct (decide (k ∈ key <$> l)) as [Hin | Hnin].
  - split; [done | intros _]. destruct (count_key k l) eqn:E; [| lia].
    apply count_key_zero in E. done.
  - apply count_key_zero in Hnin as E. rewrite E. split; [lia | done].
Qed.

Lemma count_key_push k (l : list FriendRef) (f : FriendRef) :
  key f = k -> count_key k (JS.push f l) = S (count_key k l).
Proof.
  intros Hk. unfold JS.push. rewrite count_key_app. unfold count_key at 2.
  simpl. rewrite bool_decide_eq_true_2 by done. simpl. lia.
Qed.

(** A list deduplicated by key has at most one entry for each key. *)
Lemma NoDup_count_key k (l : list FriendRef) :
  NoDup (key <$> l) -> count_key k l <= 1.
Proof.
  induction l as [| f l IH]; simpl; [unfold count_key; simpl; lia |].
  rewrite NoDup_cons. intros [Hnin Hnd]. specialize (IH Hnd).
  unfold count_key in *. simpl. case_bool_decide; simpl; [| done].
  subst k. apply count_key_zero in Hnin. unfold count_key in Hnin. lia.
Qed.

Lemma filter_other_key_absent k (l : list FriendRef) :
  k ∉ key <$>
    List.filter (fun req => negb (bool_decide (key req = k))) l.
Proof.
  rewrite list_elem_of_fmap. intros (f & -> & Hin).
  apply list_elem_of_In, List.filter_In in Hin as [_ Hk].
  rewrite bool_decide_eq_true_2 in Hk by done. done.
Qed.

Lemma filter_other_key_keeps k (l : list FriendRef) (f : FriendRef) :
  f ∈ l -> key f <> k ->
  f ∈ List.filter (fun req => negb (bool_decide (key req = k))) l.
Proof.
  intros Hin Hk. apply list_elem_of_In, List.filter_In.
  split; [by apply list_elem_of_In |].
  by rewrite bool_decide_eq_false_2.
Qed.

(** ** Running the methods *)

Ltac run :=
  unfold outcome, world, stored, mbind, M_bind, mret, M_ret, this, update,
    modify, get, loadUserData in *; simpl in *.

(** ** Friends *)

Lemma addFriend_known now k name w :
  k ∈ key <$> friends (chatManager w) ->
  addFriend now k name w = (Returned false, w).
Proof.
  intros Hin. unfold addFriend. run.
  apply some_key_true in Hin. by rewrite Hin.
Qed.

Lemma addFriend_fresh now k name w :
  k ∉ key <$> friends (chatManager w) ->
  addFriend now k name w =
    (Returned true,
     set_chatManager
       (set_friends
          (friends (chatManager w) ++
             [ {| key := k; username := name;
                  stamp := addedAt (toISOString now) |} ])
          (chatManager w)) w).
Proof.
  intros Hnin. unfold addFriend. run.
  apply some_key_false in Hnin. by rewrite Hnin.
Qed.

(** Whatever the list, the key is on it once [addFriend] is through. *)
Lemma addFriend_present now k name w :
  k ∈ key <$> friends (chatManager (world (addFriend now k name w))).
Proof.
  destruct (decide (k ∈ key <$> friends (chatManager w))) as [Hin | Hnin].
  - by rewrite addFriend_known.
  - rewrite addFriend_fresh by done. run.
    rewrite fmap_app. apply elem_of_app. right. simpl. apply list_elem_of_here.
Qed.

(** [addFriend] returns, and touches nothing but the friends list. *)
Lemma addFriend_frame now k name w :
  let w' := world (addFriend now k name w) in
  chats (chatManager w') = chats (chatManager w)
  /\ friendRequests (chatManager w') = friendRequests (chatManager w)
  /\ sentFriendRequests (chatManager w') = sentFriendRequests (chatManager w)
  /\ localStorage w' = localStorage w
  /\ exists b, outcome (addFriend now k name w) = Returned b.
Proof.
  destruct (decide (k ∈ key <$> friends (chatManager w))) as [Hin | Hnin].
  - rewrite addFriend_known by done. run. eauto 10.
  - rewrite addFriend_fresh by done. run. eauto 10.
Qed.

(** C5. [addFriend] is idempotent by key.  On a friends list that holds the
    key [k] at most once (the list is deduplicated by key), a second
    [addFriend] for [k] returns [false] and changes nothing, and exactly
    one entry with key [k] is left.  When [k] is already on the list the
    first call, too, returns [false] and leaves the state as it is, so the
    stored username is kept and the new name is ignored; when it is not,
    the one entry is the new one, appended at the end. *)
Theorem addFriend_idempotent now1 now2 k name1 name2 w :
  count_key k (friends (chatManager w)) <= 1 ->
  let r1 := addFriend now1 k name1 w in
  let r2 := addFriend now2 k name2 (world r1) in
  outcome r2 = Returned false
  /\ world r2 = world r1
  /\ count_key k (friends (chatManager (world r2))) = 1
  /\ (k ∈ key <$> friends (chatManager w) -> r1 = (Returned false, w))
  /\ (k ∉ key <$> friends (chatManager w) ->
      outcome r1 = Returned true
      /\ friends (chatManager (world r1)) =
           friends (chatManager w) ++
             [ {| key := k; username := name1;
                  stamp := addedAt (toISOString now1) |} ]).
Proof.
  intros Hcount r1 r2.
  assert (Hsecond : r2 = (Returned false, world r1)).
  { apply addFriend_known, addFriend_present. }
  assert (Hone : count_key k (friends (chatManager (world r1))) = 1).
  { subst r1. destruct (decide (k ∈ key <$> friends (chatManager w)))
      as [Hin | Hnin].
    - rewrite addFriend_known by done. run.
      apply count_key_pos in Hin. lia.
    - rewrite addFriend_fresh by done. run.
      apply count_key_zero in Hnin.
      change (?l ++ [?f]) with (JS.push f l).
      rewrite count_key_push by done. lia. }
  rewrite Hsecond. run. repeat split; try done.
  - intros Hin. by apply addFriend_known.
  - subst r1. by rewrite addFriend_fresh.
  - subst r1. by rewrite addFriend_fresh.
Qed.

(** Bob is a friend already; adding him again under another name. *)
Lemma addFriend_idempotent_witness :
  let bob :=
    {| key := Sample.bob_key; username := "Bob";
       stamp := addedAt "2024-02-01T09:00:00.000Z" |} in
  let w :=
    Sample.alice (set_friends [bob] Sample.loaded_manager)
      (Sample.roomy ∅) in
  let r1 := addFriend Sample.noon Sample.bob_key "Robert" w in
  let r2 := addFriend Sample.noon Sample.bob_key "Robert" (world r1) in
  count_key Sample.bob_key (friends (chatManager w)) <= 1
  /\ outcome r2 = Returned false
  /\ world r2 = world r1
  /\ count_key Sample.bob_key (friends (chatManager (world r2))) = 1
  /\ friends (chatManager (world r2)) = [bob].
Proof.
  intros bob w r1 r2.
  assert (Hcount : count_key Sample.bob_key (friends (chatManager w)) <= 1)
    by (vm_compute; lia).
  destruct (addFriend_idempotent Sample.noon Sample.noon Sample.bob_key
              "Robert" "Robert" w Hcount) as (H2 & Hsame & Hone & _).
  split_and!; [exact Hcount | exact H2 | exact Hsame | exact Hone |].
  vm_compute. reflexivity.
Defined.

(** ** Loading *)

Lemma objects_Some (cs : list Chat) : objects (Some <$> cs) = cs.
Proof.
  unfold objects. induction cs as [| c cs IH]; simpl; [done |].
  by f_equal.
Qed.

Lemma filter_all_invalid (cs : list (option Chat)) :
  forallb (fun c => negb (valid_chat c)) cs = true ->
  List.filter valid_chat cs = [].
Proof.
  induction cs as [| c cs IH]; simpl; [done |].
  intros [Hc Hcs]%andb_true_iff. apply negb_true_iff in Hc.
  rewrite Hc. auto.
Qed.

Lemma filter_all_valid (cs : list Chat) :
  forallb (fun c => valid_chat (Some c)) cs = true ->
  List.filter valid_chat (Some <$> cs) = Some <$> cs.
Proof.
  induction cs as [| c cs IH]; simpl; [done |].
  intros [Hc Hcs]%andb_true_iff. rewrite Hc. f_equal. auto.
Qed.

(** The chat list [loadChats] installs is never empty, and nothing else
    than the manager is touched. *)
Lemma loadChats_returns userKey w :
  outcome (loadChats userKey w) = Returned tt
  /\ chats (chatManager (world (loadChats userKey w))) <> []
  /\ localStorage (world (loadChats userKey w)) = localStorage w.
Proof.
  unfold loadChats. run.
  destruct (items (localStorage w) !! userKey) as [d |]; run;
    [| by repeat split].
  repeat split. case_decide as Hlen; [done |].
  intros Hnil. by rewrite Hnil in Hlen.
Qed.

(** C2. After [loadChats] the chat list is never empty, whatever is stored
    under the key; and when there is no document, or no [chats] field, or
    no entry that passes the filter (an entry without an id or without a
    name does not), the list is the one Favorites chat of
    [initializeChats], whose id is 1 and whose message list is empty. *)
Theorem loadChats_never_empty userKey w :
  let r := loadChats userKey w in
  outcome r = Returned tt
  /\ chats (chatManager (world r)) <> []
  /\ (no_valid_chat w userKey = true ->
      chats (chatManager (world r)) = initializeChats
      /\ exists fav, initializeChats = [fav]
           /\ chat_id fav = Some 1%Z
           /\ chat_type fav = Some favorites
           /\ chat_messages fav = Some [])
  /\ (forall c, chat_id c = None \/ chat_name c = None ->
        valid_chat (Some c) = false).
Proof.
  intros r. destruct (loadChats_returns userKey w) as (Hr & Hne & _).
  split; [done |]. split; [done |]. split.
  - intros Hcase. split; [| eexists; repeat split].
    subst r. unfold loadChats, no_valid_chat in *. run.
    destruct (items (localStorage w) !! userKey) as [d |]; run; [| done].
    destruct (ud_chats d) as [cs |]; simpl; [| done].
    by rewrite filter_all_invalid.
  - intros c [Hc | Hc]; simpl; rewrite Hc; simpl; [done |].
    apply andb_false_r.
Qed.

(** A document with nothing but broken chat entries. *)
Lemma loadChats_never_empty_witness :
  let w :=
    Sample.alice Sample.new_manager
      (Sample.roomy {[ Sample.alice_key := Sample.broken_data ]}) in
  no_valid_chat w Sample.alice_key = true
  /\ chats (chatManager (world (loadChats Sample.alice_key w)))
       = initializeChats.
Proof.
  intros w.
  assert (Hcase : no_valid_chat w Sample.alice_key = true) by reflexivity.
  destruct (loadChats_never_empty Sample.alice_key w) as (_ & _ & Hfav & _).
  split; [exact Hcase | exact (proj1 (Hfav Hcase))].
Defined.

(** ** The message cap *)

Lemma slice_last_short {A} n (l : list A) :
  length l <= n -> JS.slice_last n l = l.
Proof.
  intros Hlen. unfold JS.slice_last.
  by replace (length l - n) with 0 by lia.
Qed.

Lemma slice_last_length {A} n (l : list A) :
  length (JS.slice_last n l) = min n (length l).
Proof. unfold JS.slice_last. rewrite length_drop. lia. Qed.

(** The last [n] of a list are the last [n] of what follows its own last
    [n]. *)
Lemma slice_last_app {A} n (l l' : list A) :
  JS.slice_last n (JS.slice_last n l ++ l') = JS.slice_last n (l ++ l').
Proof.
  destruct (decide (length l <= n)) as [Hle | Hgt].
  - by rewrite (slice_last_short n l).
  - unfold JS.slice_last at 1 3. rewrite !length_app, slice_last_length.
    unfold JS.slice_last.
    rewrite <- (drop_app_le l l' (length l - n)) by lia.
    rewrite drop_drop. f_equal. lia.
Qed.

Lemma slice_last_snoc {A} n (l : list A) (x : A) :
  last (JS.slice_last (S n) (l ++ [x])) = Some x.
Proof.
  unfold JS.slice_last. rewrite length_app. simpl.
  rewrite drop_app_le by lia. apply last_snoc.
Qed.

(** One call: the message is appended and the list cut back to its last
    1000. *)
Lemma addMessage_messages now chat author text type fileData fileName :
  let r := addMessage now chat author text type fileData fileName in
  messages_of r.2 = JS.slice_last 1000 (messages_of chat ++ [r.1]).
Proof.
  unfold addMessage, messages_of, JS.push. simpl.
  case_decide as Hlen; [done |].
  rewrite slice_last_short; [done | lia].
Qed.

Lemma addMessages_returned chat calls :
  length (addMessages chat calls).1 = length calls.
Proof.
  revert chat. induction calls as [| c calls IH]; intros chat; simpl; auto.
Qed.

(** Any number of calls: what is left is the last 1000 of the old messages
    followed by the new ones. *)
Lemma addMessages_messages calls chat :
  calls <> [] \/ length (messages_of chat) <= 1000 ->
  messages_of (addMessages chat calls).2 =
    JS.slice_last 1000 (messages_of chat ++ (addMessages chat calls).1).
Proof.
  revert chat. induction calls as [| c calls IH]; intros chat Hcase.
  - destruct Hcase as [? | Hlen]; [done |]. simpl.
    rewrite app_nil_r. by rewrite slice_last_short.
  - cbn [addMessages fst snd].
    set (r := addMessage _ chat _ _ _ _ _).
    rewrite IH.
    + subst r. rewrite addMessage_messages. rewrite slice_last_app.
      by rewrite <- app_assoc.
    + right. subst r. rewrite addMessage_messages, slice_last_length. lia.
Qed.

(** C3. After any call of [addMessage] the chat holds at most 1000
    messages.  After 1001 calls on a chat that had none, it holds exactly
    1000: the messages of the calls in the order of the calls, the first
    one left out. *)
Theorem addMessage_cap :
  (forall now chat author text type fileData fileName,
     length (messages_of
               (addMessage now chat author text type fileData fileName).2)
       <= 1000)
  /\ (forall chat calls,
        messages_of chat = [] -> length calls = 1001 ->
        let r := addMessages chat calls in
        length r.1 = 1001
        /\ length (messages_of r.2) = 1000
        /\ messages_of r.2 = drop 1 r.1).
Proof.
  split.
  - intros. rewrite addMessage_messages, slice_last_length. lia.
  - intros chat calls Hnone Hcalls r. subst r.
    pose proof (addMessages_returned chat calls) as Hret.
    rewrite addMessages_messages, Hnone by (rewrite Hnone; simpl; lia).
    simpl. rewrite slice_last_length. unfold JS.slice_last.
    rewrite Hret, Hcalls. split; [done |]. split; [lia |].
    by replace (1001 - 1000) with 1 by lia.
Qed.

(** 1001 messages, numbered in their texts from 0: number 0 is gone. *)
Lemma addMessage_cap_witness :
  let calls := Sample.nth_call <$> seq 0 1001 in
  let r := addMessages Sample.empty_chat calls in
  messages_of Sample.empty_chat = []
  /\ length calls = 1001
  /\ length (messages_of r.2) = 1000
  /\ messages_of r.2 = drop 1 r.1
  /\ msg_text <$> head (messages_of r.2) = Some "1"
  /\ msg_text <$> last (messages_of r.2) = Some "1000".
Proof.
  intros calls r.
  assert (Hnone : messages_of Sample.empty_chat = []) by reflexivity.
  assert (Hcalls : length calls = 1001) by (vm_compute; reflexivity).
  destruct (proj2 addMessage_cap Sample.empty_chat calls Hnone Hcalls)
    as (_ & Hlen & Hdrop).
  split_and!;
    [exact Hnone | exact Hcalls | exact Hlen | exact Hdrop | |];
    vm_compute; reflexivity.
Defined.

(** ** Friend requests *)

Lemma sendFriendRequest_already now1 now2 targetKey selfKey selfUsername w :
  targetKey ∈ key <$> sentFriendRequests (chatManager w) ->
  sendFriendRequest now1 now2 targetKey selfKey selfUsername w =
    (Returned false, w).
Proof.
  intros Hin. unfold sendFriendRequest. run.
  apply some_key_true in Hin. by rewrite Hin.
Qed.

(** A request that is not on the sent list yet is appended to it, whether
    or not it reaches anybody, and whether or not the write succeeds. *)
Lemma sendFriendRequest_appends now1 now2 targetKey selfKey selfUsername w :
  targetKey ∉ key <$> sentFriendRequests (chatManager w) ->
  sentFriendRequests
    (chatManager
       (world (sendFriendRequest now1 now2 targetKey selfKey selfUsername w)))
  = sentFriendRequests (chatManager w) ++
      [ {| key := targetKey; username := selfUsername;
           stamp := sentAt (toISOString now1) |} ].
Proof.
  intros Hnin. unfold sendFriendRequest. run.
  apply some_key_false in Hnin. rewrite Hnin.
  destruct (items (localStorage w) !! targetKey) as [t |]; [| done].
  unfold saveUserData. simpl. by destruct (quota _ _ _ _).
Qed.

(** C6. On a sent list that holds the target at most once (the list is
    deduplicated by key), a second [sendFriendRequest] with the same
    arguments returns [false], changes nothing, and exactly one entry for
    the target is on the list. *)
Theorem sendFriendRequest_twice
  now1 now2 now3 now4 targetKey selfKey selfUsername w :
  count_key targetKey (sentFriendRequests (chatManager w)) <= 1 ->
  let r1 := sendFriendRequest now1 now2 targetKey selfKey selfUsername w in
  let r2 :=
    sendFriendRequest now3 now4 targetKey selfKey selfUsername (world r1) in
  outcome r2 = Returned false
  /\ world r2 = world r1
  /\ count_key targetKey (sentFriendRequests (chatManager (world r2))) = 1.
Proof.
  intros Hcount r1 r2.
  assert (Hone :
    count_key targetKey (sentFriendRequests (chatManager (world r1))) = 1).
  { subst r1.
    destruct (decide (targetKey ∈ key <$> sentFriendRequests (chatManager w)))
      as [Hin | Hnin].
    - rewrite sendFriendRequest_already by done. run.
      apply count_key_pos in Hin. lia.
    - rewrite sendFriendRequest_appends by done.
      apply count_key_zero in Hnin.
      change (?l ++ [?f]) with (JS.push f l).
      rewrite count_key_push by done. lia. }
  assert (Hsecond : r2 = (Returned false, world r1)).
  { apply sendFriendRequest_already, count_key_pos. lia. }
  rewrite Hsecond. by run.
Qed.

Lemma sendFriendRequest_twice_witness :
  let w :=
    Sample.alice Sample.loaded_manager
      (Sample.roomy {[ Sample.bob_key := Sample.bob_data ]}) in
  let r1 :=
    sendFriendRequest Sample.noon Sample.noon
      Sample.bob_key Sample.alice_key "Alice" w in
  let r2 :=
    sendFriendRequest Sample.noon Sample.noon
      Sample.bob_key Sample.alice_key "Alice" (world r1) in
  count_key Sample.bob_key (sentFriendRequests (chatManager w)) <= 1
  /\ outcome r1 = Returned true
  /\ outcome r2 = Returned false
  /\ count_key Sample.bob_key
       (sentFriendRequests (chatManager (world r2))) = 1.
Proof.
  intros w r1 r2.
  assert (Hcount :
    count_key Sample.bob_key (sentFriendRequests (chatManager w)) <= 1)
    by (vm_compute; lia).
  destruct (sendFriendRequest_twice Sample.noon Sample.noon Sample.noon
              Sample.noon Sample.bob_key Sample.alice_key "Alice" w Hcount)
    as (H2 & _ & Hone).
  split_and!; [exact Hcount | | exact H2 | exact Hone].
  vm_compute. reflexivity.
Defined.

(** C10. A request to a key under which nothing is stored, and which is
    not on the sent list yet, returns [true] and is appended to the sent
    list, while the store is left exactly as it was: no stored document,
    hence no [friendRequests] of anybody, has changed. *)
Theorem sendFriendRequest_undelivered
  now1 now2 targetKey selfKey selfUsername w :
  targetKey ∉ key <$> sentFriendRequests (chatManager w) ->
  stored w targetKey = None ->
  let r := sendFriendRequest now1 now2 targetKey selfKey selfUsername w in
  outcome r = Returned true
  /\ (exists entry,
        sentFriendRequests (chatManager (world r)) =
          sentFriendRequests (chatManager w) ++ [entry]
        /\ key entry = targetKey)
  /\ localStorage (world r) = localStorage w
  /\ (forall k, stored (world r) k = stored w k).
Proof.
  intros Hnin Hnone r. subst r. unfold sendFriendRequest. run.
  apply some_key_false in Hnin. rewrite Hnin, Hnone. simpl.
  repeat split. eexists. by split.
Qed.

(** Nobody is stored under Bob's key. *)
Lemma sendFriendRequest_undelivered_witness :
  let w := Sample.alice Sample.loaded_manager (Sample.roomy ∅) in
  let r :=
    sendFriendRequest Sample.noon Sample.noon
      Sample.bob_key Sample.alice_key "Alice" w in
  (Sample.bob_key ∉ key <$> sentFriendRequests (chatManager w))
  /\ stored w Sample.bob_key = None
  /\ outcome r = Returned true
  /\ localStorage (world r) = localStorage w.
Proof.
  intros w r.
  assert (Hnin : Sample.bob_key ∉ key <$> sentFriendRequests (chatManager w))
    by apply not_elem_of_nil.
  assert (Hnone : stored w Sample.bob_key = None) by reflexivity.
  destruct (sendFriendRequest_undelivered Sample.noon Sample.noon
              Sample.bob_key Sample.alice_key "Alice" w Hnin Hnone)
    as (Hret & _ & Hstore & _).
  split_and!; [exact Hnin | exact Hnone | exact Hret | exact Hstore].
Defined.

(** What a delivered request writes: the sender's entry carries the
    target's key and the sender's own name; the entry put into the
    target's document carries the sender's key and name. *)
Lemma sendFriendRequest_delivered
  now1 now2 targetKey selfKey selfUsername w t :
  targetKey ∉ key <$> sentFriendRequests (chatManager w) ->
  stored w targetKey = Some t ->
  quota (localStorage w) (items (localStorage w)) targetKey
    {| ud_username := ud_username t;
       ud_chats := ud_chats t;
       ud_friends := ud_friends t;
       ud_friendRequests :=
         Some (default [] (ud_friendRequests t) ++
                 [ {| key := selfKey; username := selfUsername;
                      stamp := sentAt (toISOString now2) |} ]);
       ud_sentFriendRequests := ud_sentFriendRequests t |} = true ->
  let r := sendFriendRequest now1 now2 targetKey selfKey selfUsername w in
  outcome r = Returned true
  /\ sentFriendRequests (chatManager (world r)) =
       sentFriendRequests (chatManager w) ++
         [ {| key := targetKey; username := selfUsername;
              stamp := sentAt (toISOString now1) |} ]
  /\ ud_friendRequests <$> stored (world r) targetKey =
       Some (Some (default [] (ud_friendRequests t) ++
                     [ {| key := selfKey; username := selfUsername;
                          stamp := sentAt (toISOString now2) |} ])).
Proof.
  intros Hnin Hsome Hquota r. subst r. unfold sendFriendRequest. run.
  apply some_key_false in Hnin. rewrite Hnin, Hsome. simpl.
  unfold saveUserData, JS.push. simpl. rewrite Hquota. simpl.
  repeat split. by rewrite lookup_insert_eq.
Qed.

(** C9. Alice sends Bob a request; Bob's document is stored and names him
    Bob.  The entry put on Alice's sent list carries Bob's key with
    Alice's own name. *)
Theorem sendFriendRequest_names_the_sender :
  let w :=
    Sample.alice Sample.loaded_manager
      (Sample.roomy {[ Sample.bob_key := Sample.bob_data ]}) in
  let r :=
    sendFriendRequest Sample.noon Sample.noon
      Sample.bob_key Sample.alice_key "Alice" w in
  ud_username <$> stored w Sample.bob_key = Some "Bob"
  /\ outcome r = Returned true
  /\ sentFriendRequests (chatManager (world r)) =
       [ {| key := Sample.bob_key; username := "Alice";
            stamp := sentAt (toISOString Sample.noon) |} ].
Proof. vm_compute. repeat split. Qed.

(** C1, on Alice accepting Bob's request while the store is full: Bob's
    document is stored, the call throws, and Bob's stored document is as
    it was, without Alice among its friends and with Alice on its sent
    list. *)
Lemma acceptFriendRequest_full_store :
  let w :=
    Sample.alice (chatManager Sample.alice_with_request)
      (Sample.full {[ Sample.bob_key := Sample.bob_data ]}) in
  let r :=
    acceptFriendRequest Sample.noon Sample.noon
      Sample.bob_key "Bob" Sample.alice_key "Alice" w in
  stored w Sample.bob_key = Some Sample.bob_data
  /\ outcome r = Threw "Failed to save user data"
  /\ stored (world r) Sample.bob_key = Some Sample.bob_data
  /\ key <$> default [] (ud_friends Sample.bob_data) = []
  /\ key <$> default [] (ud_sentFriendRequests Sample.bob_data)
       = [Sample.alice_key].
Proof. vm_compute. repeat split. Qed.

(** C1 as amended.  With a document stored under the requester's key,
    [acceptFriendRequest] leaves the requester among the friends and out
    of the incoming requests of the manager.  When it returns, it leaves
    the requester's stored document with the accepting user among its
    friends and out of its sent requests; and it does return when the
    store takes the write.  Otherwise it has thrown out of [saveUserData]
    and the store is as it was. *)
Theorem acceptFriendRequest_both_sides
  now1 now2 requesterKey requesterUsername selfKey selfUsername w d :
  stored w requesterKey = Some d ->
  let r :=
    acceptFriendRequest now1 now2 requesterKey requesterUsername
      selfKey selfUsername w in
  requesterKey ∈ key <$> friends (chatManager (world r))
  /\ (requesterKey ∉ key <$> friendRequests (chatManager (world r)))
  /\ (outcome r = Returned tt ->
      exists d',
        stored (world r) requesterKey = Some d'
        /\ selfKey ∈ key <$> default [] (ud_friends d')
        /\ (selfKey ∉ key <$> default [] (ud_sentFriendRequests d')))
  /\ ((forall doc,
         quota (localStorage w) (items (localStorage w)) requesterKey doc
           = true) ->
      outcome r = Returned tt)
  /\ (outcome r <> Returned tt ->
      outcome r = Threw "Failed to save user data"
      /\ localStorage (world r) = localStorage w).
Proof.
  intros Hsome r. subst r.
  pose proof (addFriend_present now1 requesterKey requesterUsername w)
    as Hpresent.
  pose proof (addFriend_frame now1 requesterKey requesterUsername w)
    as (_ & _ & _ & Hstore & b & Hb).
  destruct (addFriend now1 requesterKey requesterUsername w) as [o w1]
    eqn:Hadd.
  unfold acceptFriendRequest, mbind, M_bind. rewrite Hadd.
  run. subst o. rewrite Hstore, Hsome. simpl.
  unfold saveUserData. simpl. rewrite Hstore.
  destruct (quota (localStorage w) (items (localStorage w)) requesterKey _)
    eqn:Hquota; simpl.
  - split; [done |]. split; [apply filter_other_key_absent |].
    split; [| split; [done | by intros []]].
    intros _. eexists. split; [by rewrite lookup_insert_eq |]. simpl. split.
    + destruct (JS.some _ (default [] (ud_friends d))) eqn:Hknown.
      * by apply some_key_true.
      * unfold JS.push. rewrite fmap_app. apply elem_of_app. right.
        apply list_elem_of_here.
    + destruct (ud_sentFriendRequests d) as [sent |]; simpl.
      * apply filter_other_key_absent.
      * apply not_elem_of_nil.
  - split; [done |]. split; [apply filter_other_key_absent |].
    split; [done |]. split; [| done].
    intros Hall. by rewrite Hall in Hquota.
Qed.

(** Alice accepts the request Bob has sent her. *)
Lemma acceptFriendRequest_both_sides_witness :
  let w := Sample.alice_with_request in
  let r :=
    acceptFriendRequest Sample.noon Sample.noon
      Sample.bob_key "Bob" Sample.alice_key "Alice" w in
  stored w Sample.bob_key = Some Sample.bob_data
  /\ outcome r = Returned tt
  /\ Sample.bob_key ∈ key <$> friends (chatManager (world r))
  /\ (Sample.bob_key ∉ key <$> friendRequests (chatManager (world r)))
  /\ (ud_friends <$> stored (world r) Sample.bob_key =
        Some (Some [ {| key := Sample.alice_key; username := "Alice";
                        stamp := addedAt (toISOString Sample.noon) |} ]))
  /\ ud_sentFriendRequests <$> stored (world r) Sample.bob_key =
       Some (Some []).
Proof.
  intros w r.
  assert (Hsome : stored w Sample.bob_key = Some Sample.bob_data)
    by reflexivity.
  assert (Hquota : forall doc,
    quota (localStorage w) (items (localStorage w)) Sample.bob_key doc = true)
    by (intros doc; reflexivity).
  destruct (acceptFriendRequest_both_sides Sample.noon Sample.noon
              Sample.bob_key "Bob" Sample.alice_key "Alice" w
              Sample.bob_data Hsome)
    as (Hfriend & Hrequest & _ & Hret & _).
  split_and!;
    [exact Hsome | exact (Hret Hquota) | exact Hfriend | exact Hrequest | |];
    vm_compute; reflexivity.
Defined.

(** C7. [rejectFriendRequest] drops every entry with the requester's key
    from the incoming requests and keeps the others in their order; chats,
    friends and sent requests, the store, the session and the page are as
    before; and the store is not consulted: run against any other store,
    the call does the same and leaves that store as it found it. *)
Theorem rejectFriendRequest_local requesterKey w :
  let r := rejectFriendRequest requesterKey w in
  outcome r = Returned tt
  /\ (requesterKey ∉ key <$> friendRequests (chatManager (world r)))
  /\ friendRequests (chatManager (world r)) =
       List.filter (fun req => negb (bool_decide (key req = requesterKey)))
         (friendRequests (chatManager w))
  /\ (forall f, f ∈ friendRequests (chatManager w) -> key f <> requesterKey ->
        f ∈ friendRequests (chatManager (world r)))
  /\ chats (chatManager (world r)) = chats (chatManager w)
  /\ friends (chatManager (world r)) = friends (chatManager w)
  /\ sentFriendRequests (chatManager (world r)) =
       sentFriendRequests (chatManager w)
  /\ localStorage (world r) = localStorage w
  /\ currentUser (world r) = currentUser w
  /\ currentUserKey (world r) = currentUserKey w
  /\ ui (world r) = ui w
  /\ (forall ls,
        rejectFriendRequest requesterKey (set_localStorage ls w) =
          (outcome r, set_localStorage ls (world r))).
Proof.
  unfold rejectFriendRequest. run. repeat split.
  - apply filter_other_key_absent.
  - intros f Hin Hk. by apply filter_other_key_keeps.
Qed.

Lemma rejectFriendRequest_local_witness :
  let r := rejectFriendRequest Sample.bob_key Sample.alice_with_request in
  outcome r = Returned tt
  /\ friendRequests (chatManager (world r)) = []
  /\ localStorage (world r) = localStorage Sample.alice_with_request.
Proof.
  intros r.
  destruct (rejectFriendRequest_local Sample.bob_key
              Sample.alice_with_request)
    as (Hret & _ & Hfilter & _ & _ & _ & _ & Hstore & _).
  split_and!; [exact Hret | | exact Hstore].
  etransitivity; [exact Hfilter | reflexivity].
Defined.

(** ** Friends and sent requests stay deduplicated by key *)

Lemma deduplicated_push (l : list FriendRef) (f : FriendRef) :
  key f ∉ key <$> l -> deduplicated l -> deduplicated (JS.push f l).
Proof.
  unfold deduplicated, JS.push. intros Hnin Hnd. rewrite fmap_app.
  apply NoDup_app. split; [done |]. split; [| apply NoDup_singleton].
  intros k Hin Hk. apply list_elem_of_singleton in Hk. by subst k.
Qed.

Lemma deduplicated_filter (p : FriendRef -> bool) (l : list FriendRef) :
  deduplicated l -> deduplicated (List.filter p l).
Proof.
  unfold deduplicated. induction l as [| f l IH]; simpl; [done |].
  rewrite NoDup_cons. intros [Hnin Hnd]. destruct (p f); [| auto].
  rewrite fmap_cons. apply NoDup_cons. split; [| auto].
  intros Hin. apply Hnin. apply list_elem_of_fmap in Hin as (g & Hg & Hin).
  apply list_elem_of_fmap. exists g. split; [done |].
  apply list_elem_of_In. apply list_elem_of_In, List.filter_In in Hin.
  tauto.
Qed.

Lemma deduplicated_count k (l : list FriendRef) :
  deduplicated l -> count_key k l <= 1.
Proof. apply NoDup_count_key. Qed.

Lemma saveUserData_consistent userKey userData w :
  document_ok userData -> consistent w ->
  consistent (world (saveUserData userKey userData w)).
Proof.
  intros Hdoc (Hf & Hs & Hstored). unfold saveUserData, consistent. run.
  destruct (quota _ _ _ _); simpl; [| done].
  split; [done |]. split; [done |]. intros k d.
  destruct (decide (userKey = k)) as [-> | Hne].
  - rewrite lookup_insert_eq. by intros [= <-].
  - rewrite lookup_insert_ne by done. apply Hstored.
Qed.

Lemma addFriend_consistent now k name w :
  consistent w -> consistent (world (addFriend now k name w)).
Proof.
  intros (Hf & Hs & Hstored).
  destruct (decide (k ∈ key <$> friends (chatManager w))) as [Hin | Hnin].
  - by rewrite addFriend_known.
  - rewrite addFriend_fresh by done. run.
    split; [| done]. by apply (deduplicated_push _ (Build_FriendRef _ _ _)).
Qed.

Lemma call_consistent m w : consistent w -> consistent (call m w).
Proof.
  intros Hw.
  destruct m as [uk | uk un | dn now nm ds | dn now fk fn ck
                | i now au tx ty fd fl | now fk fn
                | now1 now2 tk ck cn | now1 now2 rk rn ck cn | rk];
    unfold call.
  - (* loadChats *)
    destruct Hw as (Hf & Hs & Hstored). unfold loadChats. run.
    destruct (items (localStorage w) !! uk) as [d |] eqn:Hd; run.
    + destruct (Hstored _ _ Hd) as [Hdf Hds]. done.
    + split_and!; [apply NoDup_nil_2 | apply NoDup_nil_2 | done].
  - (* saveChats *)
    unfold saveChats, mbind, M_bind, this. apply saveUserData_consistent;
      [| done].
    destruct Hw as (Hf & Hs & _). by split.
  - (* createChat *) by destruct Hw.
  - (* createPrivateChat *) by destruct Hw.
  - (* addMessage *)
    unfold addMessageTo. run. by destruct (chats (chatManager w) !! i).
  - (* addFriend *) by apply addFriend_consistent.
  - (* sendFriendRequest *)
    destruct (decide (tk ∈ key <$> sentFriendRequests (chatManager w)))
      as [Hin | Hnin].
    + by rewrite sendFriendRequest_already.
    + destruct Hw as (Hf & Hs & Hstored).
      unfold sendFriendRequest. run.
      apply some_key_false in Hnin as Hsome. rewrite Hsome.
      set (w1 := set_chatManager _ w).
      assert (Hw1 : consistent w1).
      { split; [done |]. split; [| done].
        by apply (deduplicated_push _ (Build_FriendRef _ _ _)). }
      destruct (items (localStorage w) !! tk) as [t |] eqn:Ht; [| done].
      pose proof (saveUserData_consistent tk
        {| ud_username := ud_username t; ud_chats := ud_chats t;
           ud_friends := ud_friends t;
           ud_friendRequests :=
             Some (JS.push {| key := ck; username := cn;
                              stamp := sentAt (toISOString now2) |}
                     (default [] (ud_friendRequests t)));
           ud_sentFriendRequests := ud_sentFriendRequests t |} w1) as Hsave.
      run. destruct (saveUserData _ _ w1) as [[[] | e] w2]; simpl in *;
        apply Hsave; try done; apply (Hstored _ _ Ht).
  - (* acceptFriendRequest *)
    pose proof (addFriend_consistent now1 rk rn w Hw) as Hw1.
    unfold acceptFriendRequest, mbind, M_bind.
    pose proof (addFriend_frame now1 rk rn w) as (_ & _ & _ & _ & b & Hb).
    destruct (addFriend now1 rk rn w) as [o w1].
    run. subst o. destruct Hw1 as (Hf & Hs & Hstored).
    set (w2 := set_chatManager _ w1).
    assert (Hw2 : consistent w2) by done.
    destruct (items (localStorage w1) !! rk) as [r |] eqn:Hr; [| done].
    destruct (Hstored _ _ Hr) as [Hrf Hrs].
    apply (saveUserData_consistent rk _ w2); [| done].
    split; simpl.
    + destruct (JS.some _ _) eqn:Hknown; [done |].
      apply some_key_false in Hknown.
      by apply (deduplicated_push _ (Build_FriendRef _ _ _)).
    + destruct (ud_sentFriendRequests r) as [sent |]; simpl;
        [by apply deduplicated_filter | apply NoDup_nil_2].
  - (* rejectFriendRequest *) by destruct Hw.
Qed.

(** Every world the calls reach has its friends and its sent requests
    deduplicated by key: each key is on either list at most once. *)
Lemma reachable_consistent w : reachable w -> consistent w.
Proof.
  induction 1 as [quota0 user userKey | m w _ IH | w user userKey _ IH].
  - split_and!; [apply NoDup_nil_2 | apply NoDup_nil_2 |].
    intros k d. unfold stored. simpl. by rewrite lookup_empty.
  - by apply call_consistent.
  - destruct IH as (_ & _ & Hstored).
    split_and!; [apply NoDup_nil_2 | apply NoDup_nil_2 | done].
Qed.

Lemma reachable_count_key w k :
  reachable w ->
  count_key k (friends (chatManager w)) <= 1
  /\ count_key k (sentFriendRequests (chatManager w)) <= 1.
Proof.
  intros (Hf & Hs & _)%reachable_consistent.
  split; by apply deduplicated_count.
Qed.

(** ** Saving and loading again *)

(** What [saveChats] does, by whether the store takes the document. *)
Lemma saveChats_run userKey username w :
  let doc :=
    {| ud_username := username;
       ud_chats := Some (Some <$> chats (chatManager w));
       ud_friends := Some (friends (chatManager w));
       ud_friendRequests := Some (friendRequests (chatManager w));
       ud_sentFriendRequests := Some (sentFriendRequests (chatManager w)) |} in
  saveChats userKey username w =
    if quota (localStorage w) (items (localStorage w)) userKey doc
    then (Returned tt, set_items (<[userKey := doc]> (items (localStorage w))) w)
    else (Threw "Failed to save user data", w).
Proof. reflexivity. Qed.

(** C4, on the in-memory state of a fresh [ChatManager], which is a
    state the calls reach: its chat list is empty, so every chat on it has
    an id and a name; the save succeeds; the load that follows leaves the
    Favorites chat, which was not there. *)
Lemma save_load_empty_chat_list :
  let w := Sample.alice Sample.new_manager (Sample.roomy ∅) in
  let r := (saveChats Sample.alice_key "Alice";;
            loadChats Sample.alice_key) w in
  reachable w
  /\ forallb (fun c => valid_chat (Some c)) (chats (chatManager w)) = true
  /\ outcome (saveChats Sample.alice_key "Alice" w) = Returned tt
  /\ outcome r = Returned tt
  /\ chats (chatManager w) = []
  /\ chats (chatManager (world r)) = initializeChats
  /\ chats (chatManager (world r)) <> chats (chatManager w).
Proof.
  split; [apply reachable_new |].
  vm_compute. repeat split. discriminate.
Qed.

(** C4 as amended.  When every chat in memory has an id and a name,
    [saveChats] followed by [loadChats] on the same key leaves the same
    friends, incoming and sent requests, and the same chats in the same
    order when there is at least one; when the save has succeeded the
    pair returns, and an empty chat list has become the one Favorites
    chat. *)
Theorem save_load_round_trip userKey username w :
  forallb (fun c => valid_chat (Some c)) (chats (chatManager w)) = true ->
  let r := (saveChats userKey username;; loadChats userKey) w in
  friends (chatManager (world r)) = friends (chatManager w)
  /\ friendRequests (chatManager (world r)) = friendRequests (chatManager w)
  /\ sentFriendRequests (chatManager (world r)) =
       sentFriendRequests (chatManager w)
  /\ (chats (chatManager w) <> [] ->
      chats (chatManager (world r)) = chats (chatManager w)
      /\ chatManager (world r) = chatManager w)
  /\ (outcome (saveChats userKey username w) = Returned tt ->
      outcome r = Returned tt
      /\ (chats (chatManager w) = [] ->
          chats (chatManager (world r)) = initializeChats)).
Proof.
  intros Hvalid r. subst r.
  unfold mbind, M_bind. rewrite saveChats_run. simpl.
  destruct (quota (localStorage w) (items (localStorage w)) userKey _);
    simpl; [| by split_and!].
  unfold loadChats. run. rewrite lookup_insert_eq. run.
  rewrite filter_all_valid, objects_Some by done.
  split; [done |]. split; [done |]. split; [done |].
  destruct (chatManager w) as [cs fs rs ss]; simpl in *.
  split.
  - intros Hne. case_decide as Hlen; [by destruct cs |]. done.
  - intros _. split; [done |]. by intros ->.
Qed.

(** Alice with the Favorites chat and one friend. *)
Lemma save_load_round_trip_witness :
  let m :=
    set_friends
      [ {| key := Sample.bob_key; username := "Bob";
           stamp := addedAt "2024-02-01T09:00:00.000Z" |} ]
      Sample.loaded_manager in
  let w := Sample.alice m (Sample.roomy ∅) in
  let r := (saveChats Sample.alice_key "Alice";;
            loadChats Sample.alice_key) w in
  forallb (fun c => valid_chat (Some c)) (chats (chatManager w)) = true
  /\ outcome (saveChats Sample.alice_key "Alice" w) = Returned tt
  /\ chats (chatManager w) <> []
  /\ outcome r = Returned tt
  /\ chatManager (world r) = chatManager w.
Proof.
  intros m w r.
  assert (Hvalid :
    forallb (fun c => valid_chat (Some c)) (chats (chatManager w)) = true)
    by reflexivity.
  assert (Hsaved : outcome (saveChats Sample.alice_key "Alice" w) = Returned tt)
    by reflexivity.
  assert (Hne : chats (chatManager w) <> []) by discriminate.
  destruct (save_load_round_trip Sample.alice_key "Alice" w Hvalid)
    as (_ & _ & _ & Hsame & Hret).
  split_and!;
    [exact Hvalid | exact Hsaved | exact Hne | exact (proj1 (Hret Hsaved))
    | exact (proj2 (Hsame Hne))].
Defined.

(** ** A save that fails *)

(** A mutation followed by a [saveChats] that the store refuses: the
    exception goes up with the world as the mutation left it. *)
Lemma saveChats_refused {A} (op : M A) a userKey username w w1 :
  op w = (Returned a, w1) ->
  (forall doc,
     quota (localStorage w1) (items (localStorage w1)) userKey doc = false) ->
  (op;; saveChats userKey username) w = (Threw "Failed to save user data", w1).
Proof.
  intros Hop Hquota. unfold mbind, M_bind. rewrite Hop, saveChats_run.
  simpl. by rewrite Hquota.
Qed.

(** A message added to a chat of the list stays there when the save that
    follows is refused. *)
Lemma addMessage_refused_save
  i now author text type fileData fileName userKey username chat w :
  chats (chatManager w) !! i = Some chat ->
  (forall doc,
     quota (localStorage w) (items (localStorage w)) userKey doc = false) ->
  let r :=
    (addMessageTo i now author text type fileData fileName;;
     saveChats userKey username) w in
  outcome r = Threw "Failed to save user data"
  /\ localStorage (world r) = localStorage w
  /\ chats (chatManager (world r)) !! i =
       Some (addMessage now chat author text type fileData fileName).2
  /\ last
       (messages_of (addMessage now chat author text type fileData fileName).2)
     = Some (addMessage now chat author text type fileData fileName).1.
Proof.
  intros Hchat Hquota r. subst r.
  set (c := (addMessage now chat author text type fileData fileName).2).
  set (m := (addMessage now chat author text type fileData fileName).1).
  assert (Hop :
    addMessageTo i now author text type fileData fileName w =
      (Returned m,
       set_chatManager
         (set_chats (<[i := c]> (chats (chatManager w))) (chatManager w)) w)).
  { unfold addMessageTo. run. by rewrite Hchat. }
  rewrite (saveChats_refused _ _ _ _ _ _ Hop) by done.
  split_and!; [reflexivity | reflexivity | |].
  - simpl. apply list_lookup_insert_eq. by eapply lookup_lt_Some.
  - subst c m. rewrite addMessage_messages. apply slice_last_snoc.
Qed.

(** C8, on a signed-in user whose store is full: the controller's
    [createChat] fails to save and says so, and the chat list in memory
    has changed all the same. *)
Lemma createChat_full_store_keeps_chat :
  let w := Sample.alice Sample.loaded_manager (Sample.full ∅) in
  let r :=
    MMessengerApp.createChat 1709294700000 Sample.noon "Team" EmptyString w in
  outcome (MMessengerApp.saveUserData w) = Threw "Failed to save user data"
  /\ ui (world r) =
       [Alert "Ошибка при создании канала. Попробуйте еще раз."]
  /\ items (localStorage (world r)) = ∅
  /\ chats (chatManager w) = initializeChats
  /\ chats (chatManager (world r)) = initializeChats ++ [Sample.empty_chat]
  /\ chatManager (world r) <> chatManager w.
Proof. vm_compute. repeat split. discriminate. Qed.

Lemma truthy_string_true s : s <> EmptyString -> JS.truthy_string s = true.
Proof. intros Hs. unfold JS.truthy_string. by case_decide. Qed.

(** C8 as amended.  When the store refuses the write, the controller's
    [createChat] returns after alerting the user, without rendering the
    chat list or closing the modal, and the store is as before; the new
    chat stays at the end of the chat list in memory, the friends and the
    request lists being untouched.  In general, when [saveChats] throws
    after a mutation that returned, the exception goes up and the world is
    the one the mutation left. *)
Theorem failed_save_keeps_mutation :
  (forall dateNow now nameInput descInput userKey user w,
     currentUserKey w = Some userKey -> currentUser w = Some user ->
     userKey <> EmptyString -> user <> EmptyString ->
     JS.trim nameInput <> EmptyString ->
     (forall doc,
        quota (localStorage w) (items (localStorage w)) userKey doc
          = false) ->
     let r := MMessengerApp.createChat dateNow now nameInput descInput w in
     outcome r = Returned tt
     /\ ui (world r) =
          ui w ++ [Alert "Ошибка при создании канала. Попробуйте еще раз."]
     /\ localStorage (world r) = localStorage w
     /\ chats (chatManager (world r)) =
          chats (chatManager w) ++
            [ {| chat_id := Some dateNow;
                 chat_name := Some (JS.trim (JS.trim nameInput));
                 chat_description := Some (JS.trim descInput);
                 chat_type := None;
                 chat_participants := None;
                 chat_messages := Some [];
                 chat_createdAt := Some (toISOString now) |} ]
     /\ friends (chatManager (world r)) = friends (chatManager w)
     /\ friendRequests (chatManager (world r)) =
          friendRequests (chatManager w)
     /\ sentFriendRequests (chatManager (world r)) =
          sentFriendRequests (chatManager w))
  /\ (forall A (op : M A) a userKey username w w1,
        op w = (Returned a, w1) ->
        (forall doc,
           quota (localStorage w1) (items (localStorage w1)) userKey doc
             = false) ->
        (op;; saveChats userKey username) w =
          (Threw "Failed to save user data", w1)).
Proof.
  split; [| intros A op a userKey username w w1; apply saveChats_refused].
  intros dateNow now nameInput descInput userKey user w
    Hkey Huser HkeyT HuserT Hname Hquota r. subst r.
  unfold MMessengerApp.createChat.
  rewrite (truthy_string_true _ Hname). simpl.
  unfold try_catch, createChat, MMessengerApp.saveUserData. run.
  rewrite Hkey, Huser.
  rewrite (truthy_string_true _ HkeyT), (truthy_string_true _ HuserT).
  simpl. rewrite saveChats_run. simpl. rewrite Hquota. simpl.
  by repeat split.
Qed.

(** Alice creates a chat while the store is full. *)
Lemma failed_save_keeps_mutation_witness :
  let w := Sample.alice Sample.loaded_manager (Sample.full ∅) in
  let r :=
    MMessengerApp.createChat 1709294700000 Sample.noon " Team " EmptyString
      w in
  JS.trim " Team " <> EmptyString
  /\ (forall doc,
        quota (localStorage w) (items (localStorage w)) Sample.alice_key doc
          = false)
  /\ outcome r = Returned tt
  /\ localStorage (world r) = localStorage w
  /\ chats (chatManager (world r)) = initializeChats ++ [Sample.empty_chat].
Proof.
  intros w r.
  assert (Hname : JS.trim " Team " <> EmptyString)
    by (vm_compute; discriminate).
  assert (Hquota : forall doc,
    quota (localStorage w) (items (localStorage w)) Sample.alice_key doc
      = false) by (intros doc; reflexivity).
  destruct (proj1 failed_save_keeps_mutation 1709294700000%Z Sample.noon
              " Team " EmptyString Sample.alice_key "Alice" w
              eq_refl eq_refl ltac:(discriminate) ltac:(discriminate)
              Hname Hquota)
    as (Hret & _ & Hstore & Hchats & _).
  split_and!; [exact Hname | exact Hquota | exact Hret | exact Hstore |].
  etransitivity; [exact Hchats | vm_compute; reflexivity].
Defined.

(** * Further properties of the code *)

(** ** Private chats *)

Lemma find_app {A} (p : A -> bool) (l l' : list A) :
  List.find p (l ++ l') =
    match List.find p l with
    | Some x => Some x
    | None => List.find p l'
    end.
Proof.
  induction l as [| x l IH]; simpl; [done |]. by destruct (p x).
Qed.

Lemma find_filter_nil {A} (p : A -> bool) (l : list A) :
  List.find p l = None <-> List.filter p l = [].
Proof.
  induction l as [| x l IH]; simpl; [done |].
  destruct (p x); [split; discriminate | done].
Qed.

Lemma private_with_second friendKey selfKey c :
  chat_type c = Some private ->
  chat_participants c = Some [selfKey; friendKey] ->
  private_with friendKey c = true.
Proof.
  intros Ht Hp. unfold private_with. rewrite Ht, Hp.
  apply bool_decide_eq_true_2, list_elem_of_further, list_elem_of_here.
Qed.

(** X1. [createPrivateChat] always appends a chat, also when the friend has
    a private chat already; [findPrivateChat] for the friend then finds a
    private chat with the friend among its participants: the one it found
    before if there was one (the new chat stays hidden behind it), the new
    one otherwise. *)
Theorem createPrivateChat_then_find
  dateNow now friendKey friendUsername selfKey w :
  let before := List.find (private_with friendKey) (chats (chatManager w)) in
  let r := createPrivateChat dateNow now friendKey friendUsername selfKey w in
  exists new,
    outcome r = Returned new
    /\ chats (chatManager (world r)) = chats (chatManager w) ++ [new]
    /\ chat_type new = Some private
    /\ chat_participants new = Some [selfKey; friendKey]
    /\ length (private_chats_with friendKey (chats (chatManager (world r))))
       = S (length (private_chats_with friendKey (chats (chatManager w))))
    /\ outcome (findPrivateChat friendKey w) = Returned before
    /\ outcome (findPrivateChat friendKey (world r)) =
         Returned (Some (default new before)).
Proof.
  intros before r. subst before r. unfold createPrivateChat, findPrivateChat.
  run. eexists. split_and!; try reflexivity.
  - unfold private_chats_with, JS.push.
    rewrite List.filter_app, length_app. simpl.
    rewrite (private_with_second friendKey selfKey) by done. simpl. lia.
  - unfold JS.push. rewrite find_app. simpl.
    rewrite (private_with_second friendKey selfKey) by done.
    by destruct (List.find _ _).
Qed.

(** X2. [startChatWithFriend] creates a private chat only when
    [findPrivateChat] finds none: with one found, it hands that chat to
    [openChat] and changes nothing; and whatever the first call did (also
    when its save threw), a second call for the same friend returns a
    private chat with that friend and leaves the world as it found it, so
    the number of private chats with that friend does not grow again. *)
Theorem startChatWithFriend_once
  dateNow1 now1 dateNow2 now2 friendKey name1 name2 w :
  let r1 := MMessengerApp.startChatWithFriend dateNow1 now1 friendKey name1 w in
  let r2 :=
    MMessengerApp.startChatWithFriend dateNow2 now2 friendKey name2
      (world r1) in
  (forall chat,
     List.find (private_with friendKey) (chats (chatManager w)) = Some chat ->
     r1 = (Returned chat, w))
  /\ (exists chat,
        r2 = (Returned chat, world r1)
        /\ private_with friendKey chat = true
        /\ (forall c, outcome r1 = Returned c -> chat = c))
  /\ length (private_chats_with friendKey (chats (chatManager (world r1))))
     = max 1 (length (private_chats_with friendKey (chats (chatManager w)))).
Proof.
  intros r1 r2.
  assert (Hfound : forall chat v,
    List.find (private_with friendKey) (chats (chatManager v)) = Some chat ->
    forall dn nw nm,
      MMessengerApp.startChatWithFriend dn nw friendKey nm v
        = (Returned chat, v)).
  { intros chat v Hfind dn nw nm.
    unfold MMessengerApp.startChatWithFriend, findPrivateChat. run.
    by rewrite Hfind. }
  split; [intros chat Hfind; by apply Hfound |].
  destruct (List.find (private_with friendKey) (chats (chatManager w)))
    as [c0 |] eqn:Hfind.
  - assert (Hr1 : r1 = (Returned c0, w)) by by apply Hfound.
    split.
    + exists c0. subst r2. rewrite Hr1. simpl.
      split; [by apply Hfound |]. split.
      * by apply List.find_some in Hfind as [_ ?].
      * by intros c [= <-].
    + rewrite Hr1. simpl.
      assert (private_chats_with friendKey (chats (chatManager w)) <> []).
      { intros Hnil. apply find_filter_nil in Hnil. congruence. }
      destruct (private_chats_with _ _) eqn:E; [done |]. simpl. lia.
  - set (new :=
      {| chat_id := Some dateNow1; chat_name := Some name1;
         chat_description := None; chat_type := Some private;
         chat_participants :=
           Some [MMessengerApp.text_of (currentUserKey w); friendKey];
         chat_messages := Some [];
         chat_createdAt := Some (toISOString now1) |}).
    assert (Hnew : private_with friendKey new = true).
    { by apply (private_with_second friendKey
                  (MMessengerApp.text_of (currentUserKey w))). }
    assert (Hchats :
      chats (chatManager (world r1)) = chats (chatManager w) ++ [new]
      /\ (forall c, outcome r1 = Returned c -> c = new)).
    { subst r1.
      unfold MMessengerApp.startChatWithFriend, findPrivateChat,
        createPrivateChat, MMessengerApp.saveUserData, saveChats,
        saveUserData, JS.push.
      run. rewrite Hfind. simpl.
      destruct (currentUserKey w) as [uk |], (currentUser w) as [un |];
        simpl; try (split; [done | by intros c [= <-]]).
      destruct (JS.truthy_string uk && JS.truthy_string un); simpl;
        try (split; [done | by intros c [= <-]]).
      destruct (quota _ _ _ _); simpl; split; try done;
        by intros c [= <-]. }
    destruct Hchats as [Hchats Hret].
    assert (Hfind1 :
      List.find (private_with friendKey) (chats (chatManager (world r1)))
        = Some new).
    { rewrite Hchats, find_app, Hfind. simpl. by rewrite Hnew. }
    split.
    + exists new. split; [by apply Hfound |]. split; [done |].
      intros c Hc. symmetry. by apply Hret.
    + rewrite Hchats. unfold private_chats_with.
      rewrite List.filter_app, length_app. simpl. rewrite Hnew. simpl.
      apply find_filter_nil in Hfind. rewrite Hfind. simpl. lia.
Qed.

(** Alice has a private chat with Bob and starts a chat with him again. *)
Lemma startChatWithFriend_once_witness :
  let w :=
    Sample.alice
      (set_chats (initializeChats ++ [Sample.chat_with_bob])
         Sample.loaded_manager)
      (Sample.roomy ∅) in
  List.find (private_with Sample.bob_key) (chats (chatManager w))
    = Some Sample.chat_with_bob
  /\ MMessengerApp.startChatWithFriend 1709294800000 Sample.noon
       Sample.bob_key "Bob" w = (Returned Sample.chat_with_bob, w).
Proof.
  intros w.
  assert (Hfind :
    List.find (private_with Sample.bob_key) (chats (chatManager w))
      = Some Sample.chat_with_bob) by reflexivity.
  split; [exact Hfind |].
  apply (proj1 (startChatWithFriend_once 1709294800000%Z Sample.noon
                  1709294800000%Z Sample.noon Sample.bob_key "Bob" "Bob" w)
           _ Hfind).
Defined.

(** ** Adding a friend by key *)

(** X3. [addUserByKey] adds nobody under a key without a stored profile:
    it returns [false] and changes nothing.  With a profile stored it does
    what [addFriend] does, so a new entry carries the name passed in,
    whatever username the stored profile has; the store is not written. *)
Theorem addUserByKey_checks_the_store now userKey username w :
  let r := addUserByKey now userKey username w in
  (stored w userKey = None -> r = (Returned false, w))
  /\ (forall d, stored w userKey = Some d ->
        r = addFriend now userKey username w
        /\ (userKey ∉ key <$> friends (chatManager w) ->
            outcome r = Returned true
            /\ friends (chatManager (world r)) =
                 friends (chatManager w) ++
                   [ {| key := userKey; username := username;
                        stamp := addedAt (toISOString now) |} ]))
  /\ localStorage (world r) = localStorage w.
Proof.
  intros r. subst r. unfold addUserByKey, try_catch. run.
  pose proof (addFriend_frame now userKey username w)
    as (_ & _ & _ & Hstore & b & Hb).
  destruct (items (localStorage w) !! userKey) as [d |] eqn:Hd; simpl.
  - destruct (addFriend now userKey username w) as [o w1] eqn:Hadd.
    run. subst o. split; [done |]. split; [| done].
    intros d' _. split; [done |]. intros Hnin.
    rewrite addFriend_fresh in Hadd by done. by injection Hadd as <- <-.
  - split; [done |]. split; [| done]. by intros d' [=].
Qed.

Lemma addUserByKey_checks_the_store_witness :
  let w := Sample.alice_and_bob in
  let r := addUserByKey Sample.noon Sample.bob_key "Bobby" w in
  stored w Sample.bob_key = Some Sample.bob_data
  /\ (Sample.bob_key ∉ key <$> friends (chatManager w))
  /\ ud_username Sample.bob_data = "Bob"
  /\ outcome r = Returned true
  /\ friends (chatManager (world r)) =
       [ {| key := Sample.bob_key; username := "Bobby";
            stamp := addedAt (toISOString Sample.noon) |} ]
  /\ addUserByKey Sample.noon "nobody" "Bobby" w = (Returned false, w).
Proof.
  intros w r.
  assert (Hsome : stored w Sample.bob_key = Some Sample.bob_data)
    by reflexivity.
  assert (Hnin : Sample.bob_key ∉ key <$> friends (chatManager w))
    by apply not_elem_of_nil.
  destruct (addUserByKey_checks_the_store Sample.noon Sample.bob_key
              "Bobby" w) as (_ & Hstored & _).
  destruct (Hstored _ Hsome) as (_ & Hfresh).
  destruct (Hfresh Hnin) as (Hret & Hfriends).
  split_and!;
    [exact Hsome | exact Hnin | reflexivity | exact Hret | exact Hfriends |].
  apply (proj1 (addUserByKey_checks_the_store Sample.noon "nobody"
                  "Bobby" w)).
  reflexivity.
Defined.

(** ** Users by name *)

Lemma storedKeys_spec ls k : k ∈ storedKeys ls <-> is_Some (items ls !! k).
Proof.
  unfold storedKeys. rewrite list_elem_of_fmap. split.
  - intros ([k' d] & -> & Hin). apply elem_of_map_to_list in Hin. eauto.
  - intros [d Hd]. exists (k, d). split; [done |].
    by apply elem_of_map_to_list.
Qed.

Lemma firstKeyByUsername_Some ls username keys k :
  firstKeyByUsername ls username keys = Some k ->
  k ∈ keys /\ exists d, items ls !! k = Some d /\ ud_username d = username.
Proof.
  induction keys as [| k' keys IH]; simpl; [done |].
  destruct (items ls !! k') as [d |] eqn:Hd.
  - case_bool_decide as Hname.
    + intros [= <-]. split; [apply list_elem_of_here | eauto].
    + intros [Hin Hk]%IH. split; [by apply list_elem_of_further | done].
  - intros [Hin Hk]%IH. split; [by apply list_elem_of_further | done].
Qed.

Lemma firstKeyByUsername_None ls username keys :
  firstKeyByUsername ls username keys = None ->
  forall k d, k ∈ keys -> items ls !! k = Some d -> ud_username d <> username.
Proof.
  induction keys as [| k' keys IH]; simpl.
  - intros _ k d Hin. by apply elem_of_nil in Hin.
  - destruct (items ls !! k') as [d' |] eqn:Hd'.
    + case_bool_decide as Hname; [done |].
      intros Hnone k d [-> | Hin]%elem_of_cons Hd; [congruence | eauto].
    + intros Hnone k d [-> | Hin]%elem_of_cons Hd; [congruence | eauto].
Qed.

(** X4. [getUserKeyByUsername] reads only: it returns a key exactly when
    some stored profile carries the name, and the key it returns is one
    under which such a profile is stored.  (Names are not unique; which of
    several namesakes it returns is the browser's order of keys.) *)
Theorem getUserKeyByUsername_finds_a_namesake username w :
  exists found,
    getUserKeyByUsername username w = (Returned found, w)
    /\ (forall k, found = Some k ->
          exists d, stored w k = Some d /\ ud_username d = username)
    /\ (found = None <->
        forall k d, stored w k = Some d -> ud_username d <> username).
Proof.
  unfold getUserKeyByUsername. run. eexists. split; [done |]. split.
  - intros k Hk. by apply firstKeyByUsername_Some in Hk as [_ ?].
  - split.
    + intros Hnone k d Hd. eapply firstKeyByUsername_None; [done | | done].
      apply storedKeys_spec. eauto.
    + intros Hall.
      destruct (firstKeyByUsername _ _ _) as [k |] eqn:Hk; [| done].
      apply firstKeyByUsername_Some in Hk as (_ & d & Hd & Hname).
      by destruct (Hall k d Hd).
Qed.

Lemma getUserKeyByUsername_finds_a_namesake_witness :
  getUserKeyByUsername "Bob" Sample.alice_and_bob =
    (Returned (Some Sample.bob_key), Sample.alice_and_bob)
  /\ getUserKeyByUsername "Carol" Sample.alice_and_bob =
       (Returned None, Sample.alice_and_bob).
Proof.
  destruct (getUserKeyByUsername_finds_a_namesake "Bob"
              Sample.alice_and_bob) as (found & Hrun & _ & _).
  split; [| vm_compute; reflexivity].
  etransitivity; [exact Hrun |]. vm_compute in Hrun.
  injection Hrun as <-. reflexivity.
Defined.

(** ** Searching users *)

Lemma prefix_refl s : String.prefix s s = true.
Proof.
  induction s as [| c s IH]; simpl; [done |].
  by destruct (Ascii.ascii_dec c c).
Qed.

Lemma includes_prefix s sub :
  String.prefix sub s = true -> JS.includes s sub = true.
Proof. intros Hp. destruct s; simpl in *; by rewrite Hp. Qed.

Lemma includes_refl s : JS.includes s s = true.
Proof. apply includes_prefix, prefix_refl. Qed.

Section SearchFacts.

Variable toLowerCase : string -> string.

Lemma usersOf_spec ls keys u :
  u ∈ usersOf toLowerCase ls keys <->
  user_key u ∈ keys
  /\ exists d,
       items ls !! user_key u = Some d
       /\ ud_username d <> EmptyString
       /\ user_username u = ud_username d
       /\ user_searchKey u = toLowerCase (ud_username d).
Proof.
  induction keys as [| k keys IH]; simpl.
  - split; [by intros ?%elem_of_nil | by intros [?%elem_of_nil _]].
  - destruct (items ls !! k) as [d |] eqn:Hd.
    + unfold JS.truthy_string. case_decide as Hname.
      * rewrite IH, elem_of_cons. split; [tauto |].
        intros [[-> | Hin] (d' & Hd' & Hne & Hrest)]; [| eauto].
        congruence.
      * rewrite elem_of_cons, IH, elem_of_cons. split.
        -- intros [-> | [Hin Hu]]; [| tauto]. simpl. eauto 10.
        -- intros [[Hk | Hin] (d' & Hd' & Hne & Hu & Hs)]; [| eauto 10].
           left. destruct u as [un uk us]; simpl in *. subst.
           rewrite Hd in Hd'. by injection Hd' as <-.
    + rewrite IH, elem_of_cons. split; [tauto |].
      intros [[-> | Hin] (d' & Hd' & Hrest)]; [congruence | eauto].
Qed.

Lemma usersOf_keys ls keys :
  user_key <$> usersOf toLowerCase ls keys `sublist_of` keys.
Proof.
  induction keys as [| k keys IH]; simpl; [done |].
  destruct (items ls !! k) as [d |]; [| by apply sublist_cons].
  destruct (JS.truthy_string _); [| by apply sublist_cons].
  rewrite fmap_cons. simpl. by apply sublist_skip.
Qed.

Lemma filter_sublist {A} (p : A -> bool) (l : list A) :
  List.filter p l `sublist_of` l.
Proof.
  induction l as [| x l IH]; simpl; [done |].
  destruct (p x); [by apply sublist_skip | by apply sublist_cons].
Qed.

Lemma searchUsers_run searchTerm self w :
  searchUsers toLowerCase searchTerm self w =
    (Returned
       (List.filter
          (fun user =>
             negb (bool_decide (user_key user = self))
             && JS.includes (toLowerCase (user_username user))
                  (toLowerCase searchTerm))
          (usersOf toLowerCase (localStorage w)
             (storedKeys (localStorage w)))), w).
Proof. reflexivity. Qed.

Lemma searchUsers_member searchTerm self w u :
  u ∈ (List.filter
         (fun user =>
            negb (bool_decide (user_key user = self))
            && JS.includes (toLowerCase (user_username user))
                 (toLowerCase searchTerm))
         (usersOf toLowerCase (localStorage w)
            (storedKeys (localStorage w)))) <->
  (exists d,
     stored w (user_key u) = Some d
     /\ ud_username d <> EmptyString
     /\ user_username u = ud_username d
     /\ user_searchKey u = toLowerCase (ud_username d))
  /\ user_key u <> self
  /\ JS.includes (toLowerCase (user_username u)) (toLowerCase searchTerm)
     = true.
Proof.
  rewrite list_elem_of_In, List.filter_In, <- list_elem_of_In, usersOf_spec.
  rewrite andb_true_iff, negb_true_iff, bool_decide_eq_false.
  unfold stored. split.
  - intros [[_ Hd] [Hne Hinc]]. done.
  - intros ((d & Hd & Hrest) & Hne & Hinc). split; [| done].
    split; [| eauto]. apply storedKeys_spec. eauto.
Qed.

(** X5. [searchUsers] reads only.  It lists exactly the stored profiles
    that have a non-empty username, a key other than the searcher's, and a
    lower-cased username that includes the lower-cased search term; each
    with its username and key, each once.  The searcher is never listed. *)
Theorem searchUsers_lists_the_matches searchTerm self w :
  exists users,
    searchUsers toLowerCase searchTerm self w = (Returned users, w)
    /\ (forall u,
          u ∈ users <->
          (exists d,
             stored w (user_key u) = Some d
             /\ ud_username d <> EmptyString
             /\ user_username u = ud_username d
             /\ user_searchKey u = toLowerCase (ud_username d))
          /\ user_key u <> self
          /\ JS.includes (toLowerCase (user_username u))
               (toLowerCase searchTerm) = true)
    /\ NoDup (user_key <$> users)
    /\ (self ∉ user_key <$> users).
Proof.
  rewrite searchUsers_run. eexists. split; [done |]. split_and!.
  - intros u. apply searchUsers_member.
  - eapply sublist_NoDup;
      [apply (NoDup_fst_map_to_list (items (localStorage w))) |].
    etransitivity; [| apply usersOf_keys].
    apply fmap_sublist, filter_sublist.
  - intros (u & Hself & Hin)%list_elem_of_fmap.
    apply searchUsers_member in Hin as (_ & Hne & _). done.
Qed.

(** X6. A profile that [saveChats] has stored under a non-empty username
    is found by every other user who searches for that username, or for
    any term the lower-cased username includes. *)
Theorem saved_user_is_found userKey username self w :
  outcome (saveChats userKey username w) = Returned tt ->
  username <> EmptyString ->
  self <> userKey ->
  let w' := world (saveChats userKey username w) in
  let user :=
    {| user_username := username; user_key := userKey;
       user_searchKey := toLowerCase username |} in
  (forall searchTerm,
     JS.includes (toLowerCase username) (toLowerCase searchTerm) = true ->
     exists users,
       outcome (searchUsers toLowerCase searchTerm self w') = Returned users
       /\ user ∈ users)
  /\ exists users,
       outcome (searchUsers toLowerCase username self w') = Returned users
       /\ user ∈ users.
Proof.
  intros Hsaved Hname Hself w' user. subst w'.
  rewrite saveChats_run in *. simpl in *.
  destruct (quota _ _ _ _); [| done]. simpl.
  assert (Hfound : forall term,
    JS.includes (toLowerCase username) (toLowerCase term) = true ->
    exists users,
      outcome (searchUsers toLowerCase term self
        (set_items
           (<[userKey:={|
                ud_username := username;
                ud_chats := Some (Some <$> chats (chatManager w));
                ud_friends := Some (friends (chatManager w));
                ud_friendRequests := Some (friendRequests (chatManager w));
                ud_sentFriendRequests :=
                  Some (sentFriendRequests (chatManager w)) |}]>
              (items (localStorage w))) w)) = Returned users
      /\ user ∈ users).
  { intros term Hterm. rewrite searchUsers_run. eexists. split; [done |].
    apply searchUsers_member. simpl. split_and!; [| done | done].
    eexists. unfold stored. simpl. rewrite lookup_insert_eq.
    split; [done |]. done. }
  split; [exact Hfound |]. apply Hfound, includes_refl.
Qed.

End SearchFacts.

(** The spec's scenario: Bob searches for "ali" and finds Alice, who has
    just been saved. *)
Lemma saved_user_is_found_witness :
  let w :=
    Sample.alice Sample.loaded_manager
      (Sample.roomy {[ Sample.bob_key := Sample.bob_data ]}) in
  let w' := world (saveChats Sample.alice_key "Alice" w) in
  outcome (saveChats Sample.alice_key "Alice" w) = Returned tt
  /\ JS.includes (Sample.lower "Alice") (Sample.lower "ali") = true
  /\ exists users,
       outcome (searchUsers Sample.lower "ali" Sample.bob_key w')
         = Returned users
       /\ {| user_username := "Alice"; user_key := Sample.alice_key;
             user_searchKey := "alice" |} ∈ users.
Proof.
  intros w w'.
  assert (Hsaved : outcome (saveChats Sample.alice_key "Alice" w) = Returned tt)
    by reflexivity.
  assert (Hinc : JS.includes (Sample.lower "Alice") (Sample.lower "ali") = true)
    by reflexivity.
  split; [exact Hsaved |]. split; [exact Hinc |].
  apply (proj1 (saved_user_is_found Sample.lower Sample.alice_key "Alice"
                  Sample.bob_key w Hsaved ltac:(discriminate)
                  ltac:(discriminate)) "ali" Hinc).
Defined.

(** ** What a friend request writes *)

(** X7. A delivered [sendFriendRequest] rewrites the target's stored
    profile and no other: the target keeps its username, chats, friends
    and sent requests, and its incoming requests gain one entry with the
    sender's key and name at the end, whether or not the sender is on the
    list already: incoming requests are not deduplicated. *)
Theorem sendFriendRequest_writes_one_entry
  now1 now2 targetKey selfKey selfUsername w t :
  targetKey ∉ key <$> sentFriendRequests (chatManager w) ->
  stored w targetKey = Some t ->
  (forall doc,
     quota (localStorage w) (items (localStorage w)) targetKey doc = true) ->
  let r := sendFriendRequest now1 now2 targetKey selfKey selfUsername w in
  outcome r = Returned true
  /\ (exists t',
        stored (world r) targetKey = Some t'
        /\ ud_username t' = ud_username t
        /\ ud_chats t' = ud_chats t
        /\ ud_friends t' = ud_friends t
        /\ ud_sentFriendRequests t' = ud_sentFriendRequests t
        /\ ud_friendRequests t' =
             Some (default [] (ud_friendRequests t) ++
                     [ {| key := selfKey; username := selfUsername;
                          stamp := sentAt (toISOString now2) |} ])
        /\ count_key selfKey (default [] (ud_friendRequests t'))
           = S (count_key selfKey (default [] (ud_friendRequests t))))
  /\ (forall k, k <> targetKey -> stored (world r) k = stored w k).
Proof.
  intros Hnin Hsome Hquota r. subst r. unfold sendFriendRequest. run.
  apply some_key_false in Hnin. rewrite Hnin, Hsome. simpl.
  unfold saveUserData. simpl. rewrite Hquota. simpl.
  split; [done |]. split.
  - eexists. rewrite lookup_insert_eq. split; [done |]. simpl.
    split_and!; try done. by apply count_key_push.
  - intros k Hk. by rewrite lookup_insert_ne.
Qed.

(** Bob sends Alice a second request from a manager that has lost the
    first: Alice's stored profile lists him twice. *)
Lemma sendFriendRequest_writes_one_entry_witness :
  let bob :=
    {| key := Sample.bob_key; username := "Bob";
       stamp := sentAt "2024-03-01T11:00:00.000Z" |} in
  let alice_data :=
    {| ud_username := "Alice"; ud_chats := None; ud_friends := None;
       ud_friendRequests := Some [bob]; ud_sentFriendRequests := None |} in
  let w :=
    {| chatManager := Sample.loaded_manager;
       localStorage := Sample.roomy {[ Sample.alice_key := alice_data ]};
       currentUser := Some "Bob"; currentUserKey := Some Sample.bob_key;
       ui := [] |} in
  let r :=
    sendFriendRequest Sample.noon Sample.noon Sample.alice_key
      Sample.bob_key "Bob" w in
  (Sample.alice_key ∉ key <$> sentFriendRequests (chatManager w))
  /\ stored w Sample.alice_key = Some alice_data
  /\ outcome r = Returned true
  /\ key <$> default []
       (default None (ud_friendRequests <$> stored (world r) Sample.alice_key))
     = [Sample.bob_key; Sample.bob_key].
Proof.
  intros bob alice_data w r.
  assert (Hnin : Sample.alice_key ∉ key <$> sentFriendRequests (chatManager w))
    by apply not_elem_of_nil.
  assert (Hsome : stored w Sample.alice_key = Some alice_data) by reflexivity.
  destruct (sendFriendRequest_writes_one_entry Sample.noon Sample.noon
              Sample.alice_key Sample.bob_key "Bob" w alice_data Hnin Hsome
              ltac:(intros doc; reflexivity)) as (Hret & _ & _).
  split_and!; [exact Hnin | exact Hsome | exact Hret |].
  vm_compute. reflexivity.
Defined.

(** X8. [acceptFriendRequest] for a requester without a stored profile
    returns normally and is one-sided: the requester is added to the
    friends and leaves the incoming requests in memory, and the store is
    left exactly as it was. *)
Theorem acceptFriendRequest_unknown_requester
  now1 now2 requesterKey requesterUsername selfKey selfUsername w :
  stored w requesterKey = None ->
  let r :=
    acceptFriendRequest now1 now2 requesterKey requesterUsername
      selfKey selfUsername w in
  outcome r = Returned tt
  /\ requesterKey ∈ key <$> friends (chatManager (world r))
  /\ (requesterKey ∉ key <$> friendRequests (chatManager (world r)))
  /\ localStorage (world r) = localStorage w.
Proof.
  intros Hnone r. subst r.
  pose proof (addFriend_present now1 requesterKey requesterUsername w)
    as Hpresent.
  pose proof (addFriend_frame now1 requesterKey requesterUsername w)
    as (_ & _ & _ & Hstore & b & Hb).
  destruct (addFriend now1 requesterKey requesterUsername w) as [o w1]
    eqn:Hadd.
  unfold acceptFriendRequest, mbind, M_bind. rewrite Hadd.
  run. subst o. rewrite Hstore, Hnone. simpl.
  split_and!; [done | done | apply filter_other_key_absent | done].
Qed.

Lemma acceptFriendRequest_unknown_requester_witness :
  let w :=
    Sample.alice (chatManager Sample.alice_with_request) (Sample.roomy ∅) in
  let r :=
    acceptFriendRequest Sample.noon Sample.noon Sample.bob_key "Bob"
      Sample.alice_key "Alice" w in
  stored w Sample.bob_key = None
  /\ outcome r = Returned tt
  /\ key <$> friends (chatManager (world r)) = [Sample.bob_key]
  /\ localStorage (world r) = localStorage w.
Proof.
  intros w r.
  assert (Hnone : stored w Sample.bob_key = None) by reflexivity.
  destruct (acceptFriendRequest_unknown_requester Sample.noon Sample.noon
              Sample.bob_key "Bob" Sample.alice_key "Alice" w Hnone)
    as (Hret & _ & _ & Hstore).
  split_and!; [exact Hnone | exact Hret | | exact Hstore].
  vm_compute. reflexivity.
Defined.

(** X9. A successful [acceptFriendRequest] rewrites the requester's stored
    profile and no other, and of that profile only the friends and the
    sent requests: username, chats and incoming requests stay; the sent
    requests keep their other entries in order; the friends gain the
    accepting user at the end, unless an entry with that key is there
    already, in which case the list, with the name it has, stays. *)
Theorem acceptFriendRequest_rewrites_the_requester
  now1 now2 requesterKey requesterUsername selfKey selfUsername w d :
  stored w requesterKey = Some d ->
  (forall doc,
     quota (localStorage w) (items (localStorage w)) requesterKey doc
       = true) ->
  let r :=
    acceptFriendRequest now1 now2 requesterKey requesterUsername
      selfKey selfUsername w in
  (exists d',
     stored (world r) requesterKey = Some d'
     /\ ud_username d' = ud_username d
     /\ ud_chats d' = ud_chats d
     /\ ud_friendRequests d' = ud_friendRequests d
     /\ ud_sentFriendRequests d' =
          List.filter (fun req => negb (bool_decide (key req = selfKey)))
            <$> ud_sentFriendRequests d
     /\ (selfKey ∈ key <$> default [] (ud_friends d) ->
         ud_friends d' = Some (default [] (ud_friends d)))
     /\ (selfKey ∉ key <$> default [] (ud_friends d) ->
         ud_friends d' =
           Some (default [] (ud_friends d) ++
                   [ {| key := selfKey; username := selfUsername;
                        stamp := addedAt (toISOString now2) |} ])))
  /\ (forall k, k <> requesterKey -> stored (world r) k = stored w k).
Proof.
  intros Hsome Hquota r. subst r.
  pose proof (addFriend_frame now1 requesterKey requesterUsername w)
    as (_ & _ & _ & Hstore & b & Hb).
  destruct (addFriend now1 requesterKey requesterUsername w) as [o w1]
    eqn:Hadd.
  unfold acceptFriendRequest, mbind, M_bind. rewrite Hadd.
  run. subst o. rewrite Hstore, Hsome. simpl.
  unfold saveUserData. simpl. rewrite Hstore, Hquota. simpl. split.
  - eexists. rewrite lookup_insert_eq. split; [done |]. simpl.
    split_and!; try done.
    + intros Hin%some_key_true. by rewrite Hin.
    + intros Hnin%some_key_false. by rewrite Hnin.
  - intros k Hk. by rewrite lookup_insert_ne.
Qed.

Lemma acceptFriendRequest_rewrites_the_requester_witness :
  let w := Sample.alice_with_request in
  let r :=
    acceptFriendRequest Sample.noon Sample.noon Sample.bob_key "Bob"
      Sample.alice_key "Alice" w in
  stored w Sample.bob_key = Some Sample.bob_data
  /\ exists d',
       stored (world r) Sample.bob_key = Some d'
       /\ ud_username d' = "Bob"
       /\ ud_chats d' = ud_chats Sample.bob_data.
Proof.
  intros w r.
  assert (Hsome : stored w Sample.bob_key = Some Sample.bob_data)
    by reflexivity.
  destruct (acceptFriendRequest_rewrites_the_requester Sample.noon
              Sample.noon Sample.bob_key "Bob" Sample.alice_key "Alice" w
              Sample.bob_data Hsome ltac:(intros doc; reflexivity))
    as ((d' & Hd' & Hname & Hchats & _) & _).
  split; [exact Hsome |]. exists d'. split_and!; [exact Hd' | exact Hname | exact Hchats].
Defined.

(** ** What loading yields *)

Lemma valid_objects (cs : list (option Chat)) :
  Some <$> objects (List.filter valid_chat cs) = List.filter valid_chat cs.
Proof.
  unfold objects. induction cs as [| c cs IH]; simpl; [done |].
  destruct (valid_chat c) eqn:Hc; [| done].
  destruct c as [c |]; [| done]. simpl. by f_equal.
Qed.

Lemma objects_valid (cs : list (option Chat)) :
  forallb (fun c => valid_chat (Some c)) (objects (List.filter valid_chat cs))
  = true.
Proof.
  unfold objects. induction cs as [| c cs IH]; simpl; [done |].
  destruct (valid_chat c) eqn:Hc; [| done].
  destruct c as [c |]; [| done]. simpl in *. by rewrite Hc.
Qed.

(** X10. What [loadChats] leaves in memory is read off the store alone:
    two worlds with the same profile under the key get the same manager
    state, whatever was in memory before (unsaved changes are gone).
    Every chat it leaves has an id and a name; when the stored list has
    such chats, it leaves exactly those, in their stored order; friends
    and requests are the stored lists, empty where the field is
    missing. *)
Theorem loadChats_reads_the_store userKey w :
  let r := loadChats userKey w in
  forallb (fun c => valid_chat (Some c)) (chats (chatManager (world r))) = true
  /\ (forall w2,
        stored w2 userKey = stored w userKey ->
        chatManager (world (loadChats userKey w2)) = chatManager (world r))
  /\ (forall d,
        stored w userKey = Some d ->
        friends (chatManager (world r)) = default [] (ud_friends d)
        /\ friendRequests (chatManager (world r)) =
             default [] (ud_friendRequests d)
        /\ sentFriendRequests (chatManager (world r)) =
             default [] (ud_sentFriendRequests d)
        /\ forall cs,
             ud_chats d = Some cs -> List.filter valid_chat cs <> [] ->
             Some <$> chats (chatManager (world r))
               = List.filter valid_chat cs).
Proof.
  intros r. subst r. unfold loadChats. run. split_and!.
  - destruct (items (localStorage w) !! userKey) as [d |]; run; [| done].
    case_decide; [done | apply objects_valid].
  - intros w2 Hsame. rewrite Hsame.
    by destruct (items (localStorage w) !! userKey).
  - intros d Hd. rewrite Hd. simpl. split_and!; try done.
    intros cs Hcs Hne. rewrite Hcs. simpl. case_decide as Hlen.
    + destruct Hne. rewrite <- valid_objects.
      by destruct (objects _).
    + apply valid_objects.
Qed.

Lemma loadChats_reads_the_store_witness :
  let w1 := Sample.alice_and_bob in
  let w2 :=
    Sample.alice (chatManager Sample.alice_with_request)
      (localStorage Sample.alice_and_bob) in
  stored w2 Sample.alice_key = stored w1 Sample.alice_key
  /\ chatManager w2 <> chatManager w1
  /\ chatManager (world (loadChats Sample.alice_key w2))
     = chatManager (world (loadChats Sample.alice_key w1)).
Proof.
  intros w1 w2.
  assert (Hsame : stored w2 Sample.alice_key = stored w1 Sample.alice_key)
    by reflexivity.
  destruct (loadChats_reads_the_store Sample.alice_key w1)
    as (_ & Hstore & _).
  split_and!; [exact Hsame | vm_compute; discriminate | exact (Hstore w2 Hsame)].
Defined.

(** Saving a non-empty list of valid chats and loading it again. *)
Lemma save_load_valid userKey username w :
  forallb (fun c => valid_chat (Some c)) (chats (chatManager w)) = true ->
  chats (chatManager w) <> [] ->
  (forall doc,
     quota (localStorage w) (items (localStorage w)) userKey doc = true) ->
  (saveChats userKey username;; loadChats userKey) w =
    (Returned tt,
     set_items
       (<[userKey :=
            {| ud_username := username;
               ud_chats := Some (Some <$> chats (chatManager w));
               ud_friends := Some (friends (chatManager w));
               ud_friendRequests := Some (friendRequests (chatManager w));
               ud_sentFriendRequests :=
                 Some (sentFriendRequests (chatManager w)) |}]>
          (items (localStorage w))) w).
Proof.
  intros Hvalid Hne Hquota.
  unfold mbind, M_bind. rewrite saveChats_run. simpl. rewrite Hquota.
  unfold loadChats. run. rewrite lookup_insert_eq. run.
  rewrite filter_all_valid, objects_Some by done.
  f_equal. unfold set_items, set_localStorage, set_chatManager. simpl.
  f_equal. destruct (chatManager w) as [cs fs rs ss]; simpl in *.
  case_decide as Hlen; [by destruct cs | done].
Qed.

(** X11. The state [loadChats] leaves is a fixed point of saving and
    loading: when the store takes the write, [saveChats] followed by
    [loadChats] on the same key returns and reproduces that state, chats
    included, whatever was stored before. *)
Theorem load_save_load userKey username w :
  (forall doc,
     quota (localStorage w) (items (localStorage w)) userKey doc = true) ->
  let w1 := world (loadChats userKey w) in
  let r := (saveChats userKey username;; loadChats userKey) w1 in
  outcome r = Returned tt
  /\ chatManager (world r) = chatManager w1.
Proof.
  intros Hquota w1 r.
  destruct (loadChats_returns userKey w) as (_ & Hne & Hstore).
  assert (Hvalid :
    forallb (fun c => valid_chat (Some c)) (chats (chatManager w1)) = true).
  { subst w1. unfold loadChats. run.
    destruct (items (localStorage w) !! userKey) as [d |]; run; [| done].
    case_decide; [done | apply objects_valid]. }
  subst r. rewrite (save_load_valid userKey username w1 Hvalid Hne).
  - done.
  - intros doc. subst w1. rewrite Hstore. apply Hquota.
Qed.

(** The broken document: loading seeds Favorites, and saving and loading
    again keeps it. *)
Lemma load_save_load_witness :
  let w :=
    Sample.alice Sample.new_manager
      (Sample.roomy {[ Sample.alice_key := Sample.broken_data ]}) in
  let w1 := world (loadChats Sample.alice_key w) in
  let r := (saveChats Sample.alice_key "Carol";;
            loadChats Sample.alice_key) w1 in
  (forall doc,
     quota (localStorage w) (items (localStorage w)) Sample.alice_key doc
       = true)
  /\ outcome r = Returned tt
  /\ chatManager (world r) = chatManager w1
  /\ chats (chatManager w1) = initializeChats.
Proof.
  intros w w1 r.
  assert (Hquota : forall doc,
    quota (localStorage w) (items (localStorage w)) Sample.alice_key doc
      = true) by (intros doc; reflexivity).
  destruct (load_save_load Sample.alice_key "Carol" w Hquota)
    as (Hret & Hsame).
  split_and!; [exact Hquota | exact Hret | exact Hsame | reflexivity].
Defined.

(** ** Creating a chat *)

(** X12. [createChat] of the manager does not check its arguments; what it
    appends survives saving and loading only if [loadChats] accepts it.
    On a non-empty list of valid chats, with the store taking the write:
    after [createChat], [saveChats] and [loadChats] the new chat is at the
    end of the list when its trimmed name is not empty (and [Date.now()]
    was not 0), and is gone, the list being as before, when the name was
    blank. *)
Theorem createChat_blank_name_is_lost
  dateNow now name description userKey username w :
  forallb (fun c => valid_chat (Some c)) (chats (chatManager w)) = true ->
  chats (chatManager w) <> [] ->
  (forall doc,
     quota (localStorage w) (items (localStorage w)) userKey doc = true) ->
  let new :=
    {| chat_id := Some dateNow;
       chat_name := Some (JS.trim name);
       chat_description := Some (JS.trim description);
       chat_type := None;
       chat_participants := None;
       chat_messages := Some [];
       chat_createdAt := Some (toISOString now) |} in
  let r1 := createChat dateNow now name description w in
  let r := (saveChats userKey username;; loadChats userKey) (world r1) in
  outcome r1 = Returned new
  /\ chats (chatManager (world r1)) = chats (chatManager w) ++ [new]
  /\ outcome r = Returned tt
  /\ (JS.trim name <> EmptyString -> dateNow <> 0%Z ->
      chats (chatManager (world r)) = chats (chatManager w) ++ [new])
  /\ (JS.trim name = EmptyString ->
      chats (chatManager (world r)) = chats (chatManager w)).
Proof.
  intros Hvalid Hne Hquota new r1 r. subst r r1.
  unfold createChat. run. fold new.
  unfold mbind, M_bind. rewrite saveChats_run. simpl. rewrite Hquota.
  unfold loadChats. run. rewrite lookup_insert_eq. run.
  unfold JS.push. rewrite fmap_app, List.filter_app.
  rewrite filter_all_valid by done. unfold objects.
  rewrite omap_app. fold (objects (Some <$> chats (chatManager w))).
  rewrite objects_Some. simpl.
  split; [done |]. split; [done |]. split; [done |]. split.
  - intros Hname Hid.
    unfold JS.truthy_number, JS.truthy_string.
    destruct (decide (dateNow = 0%Z)); [done |].
    destruct (decide (JS.trim name = EmptyString)); [done |]. simpl.
    case_decide as Hlen; [| done].
    rewrite length_app in Hlen. simpl in Hlen. lia.
  - intros Hname. unfold JS.truthy_string. rewrite Hname.
    destruct (decide (EmptyString = EmptyString)); [| done].
    rewrite andb_false_r. simpl. rewrite app_nil_r.
    case_decide; [by destruct (chats (chatManager w)) | done].
Qed.

Lemma createChat_blank_name_is_lost_witness :
  let w := Sample.alice Sample.loaded_manager (Sample.roomy ∅) in
  let r1 := createChat 1709294700000 Sample.noon "   " "about" w in
  let r := (saveChats Sample.alice_key "Alice";;
            loadChats Sample.alice_key) (world r1) in
  forallb (fun c => valid_chat (Some c)) (chats (chatManager w)) = true
  /\ chats (chatManager w) <> []
  /\ JS.trim "   " = EmptyString
  /\ length (chats (chatManager (world r1))) = 2
  /\ chats (chatManager (world r)) = initializeChats.
Proof.
  intros w r1 r.
  assert (Hvalid :
    forallb (fun c => valid_chat (Some c)) (chats (chatManager w)) = true)
    by reflexivity.
  assert (Hne : chats (chatManager w) <> []) by discriminate.
  assert (Hblank : JS.trim "   " = EmptyString) by reflexivity.
  destruct (createChat_blank_name_is_lost 1709294700000%Z Sample.noon "   "
              "about" Sample.alice_key "Alice" w Hvalid Hne
              ltac:(intros doc; reflexivity))
    as (_ & _ & _ & _ & Hlost).
  split_and!; [exact Hvalid | exact Hne | exact Hblank | | exact (Hlost Hblank)].
  vm_compute. reflexivity.
Defined.

(** The controller's [createChat] refuses a blank name before it
    touches anything: one alert, and manager, store and session are as
    they were. *)
Theorem createChat_refuses_blank_name dateNow now nameInput descInput w :
  JS.trim nameInput = EmptyString ->
  MMessengerApp.createChat dateNow now nameInput descInput w =
    (Returned tt, emit (Alert "Введите название канала!") w)
  /\ chatManager (emit (Alert "Введите название канала!") w) = chatManager w
  /\ localStorage (emit (Alert "Введите название канала!") w)
     = localStorage w.
Proof.
  intros Hblank. unfold MMessengerApp.createChat. rewrite Hblank. done.
Qed.

Lemma createChat_refuses_blank_name_witness :
  let w := Sample.alice Sample.loaded_manager (Sample.roomy ∅) in
  JS.trim " 	 " = EmptyString
  /\ MMessengerApp.createChat 1709294700000 Sample.noon " 	 " "about" w =
       (Returned tt, emit (Alert "Введите название канала!") w).
Proof.
  intros w.
  assert (Hblank : JS.trim " 	 " = EmptyString) by reflexivity.
  split; [exact Hblank |].
  apply (createChat_refuses_blank_name 1709294700000%Z Sample.noon " 	 "
           "about" w Hblank).
Defined.

(** X13. For a signed-in user whose store takes the write, the
    controller's [createChat] with a name that is not blank appends the
    chat, stores the profile with exactly the chats, friends and requests
    now in memory under the user's key and name, leaves the other stored
    profiles alone, renders that chat list and closes the modal. *)
Theorem createChat_persists
  dateNow now nameInput descInput userKey user w :
  currentUserKey w = Some userKey -> currentUser w = Some user ->
  userKey <> EmptyString -> user <> EmptyString ->
  JS.trim nameInput <> EmptyString ->
  (forall doc,
     quota (localStorage w) (items (localStorage w)) userKey doc = true) ->
  let r := MMessengerApp.createChat dateNow now nameInput descInput w in
  let m := chatManager (world r) in
  outcome r = Returned tt
  /\ chats m =
       chats (chatManager w) ++
         [ {| chat_id := Some dateNow;
              chat_name := Some (JS.trim (JS.trim nameInput));
              chat_description := Some (JS.trim descInput);
              chat_type := None;
              chat_participants := None;
              chat_messages := Some [];
              chat_createdAt := Some (toISOString now) |} ]
  /\ stored (world r) userKey =
       Some {| ud_username := user;
               ud_chats := Some (Some <$> chats m);
               ud_friends := Some (friends m);
               ud_friendRequests := Some (friendRequests m);
               ud_sentFriendRequests := Some (sentFriendRequests m) |}
  /\ (forall k, k <> userKey -> stored (world r) k = stored w k)
  /\ ui (world r) = ui w ++ [RenderChatList (chats m); CloseModal].
Proof.
  intros Hkey Huser HkeyT HuserT Hname Hquota r m. subst m r.
  unfold MMessengerApp.createChat.
  rewrite (truthy_string_true _ Hname). simpl.
  unfold try_catch, createChat, MMessengerApp.saveUserData. run.
  rewrite Hkey, Huser.
  rewrite (truthy_string_true _ HkeyT), (truthy_string_true _ HuserT).
  simpl. rewrite saveChats_run. simpl. rewrite Hquota. simpl.
  split_and!; try done.
  - by rewrite lookup_insert_eq.
  - intros k Hk. by rewrite lookup_insert_ne.
  - by rewrite <- app_assoc.
Qed.

Lemma createChat_persists_witness :
  let w := Sample.alice Sample.loaded_manager (Sample.roomy ∅) in
  let r :=
    MMessengerApp.createChat 1709294700000 Sample.noon " Team " EmptyString
      w in
  JS.trim " Team " <> EmptyString
  /\ outcome r = Returned tt
  /\ chats (chatManager (world r)) = initializeChats ++ [Sample.empty_chat]
  /\ (ud_chats <$> stored (world r) Sample.alice_key)
     = Some (Some (Some <$> (initializeChats ++ [Sample.empty_chat]))).
Proof.
  intros w r.
  assert (Hname : JS.trim " Team " <> EmptyString)
    by (vm_compute; discriminate).
  destruct (createChat_persists 1709294700000%Z Sample.noon " Team "
              EmptyString Sample.alice_key "Alice" w eq_refl eq_refl
              ltac:(discriminate) ltac:(discriminate) Hname
              ltac:(intros doc; reflexivity))
    as (Hret & _ & _).
  split_and!; [exact Hname | exact Hret | |]; vm_compute; reflexivity.
Defined.

(** ** Adding a message *)



Lemma clock_time_all :
  forallb
    (fun h =>
       forallb
         (fun m =>
            clock_time
              (JS.padStart 2 "0" (JS.toString h) +:+ ":" +:+
               JS.padStart 2 "0" (JS.toString m)))
         (seq 0 60))
    (seq 0 24) = true.
Proof. vm_compute. reflexivity. Qed.

(** X15. For every reading of the clock (hours below 24, minutes below
    60) the [time] of the message is five characters: two digits, a colon,
    two digits, with 7:05 given as 07:05. *)
Theorem addMessage_time_format now chat author text type fileData fileName :
  getHours now < 24 -> getMinutes now < 60 ->
  clock_time
    (msg_time (addMessage now chat author text type fileData fileName).1)
  = true.
Proof.
  intros Hh Hm. simpl.
  pose proof clock_time_all as Hall.
  rewrite forallb_forall in Hall.
  specialize (Hall (getHours now)). rewrite forallb_forall in Hall.
  apply Hall; apply in_seq; lia.
Qed.

Lemma addMessage_time_format_witness :
  let now :=
    {| getHours := 7; getMinutes := 5;
       toISOString := "2024-03-01T07:05:00.000Z" |} in
  getHours now < 24 /\ getMinutes now < 60
  /\ clock_time
       (msg_time (addMessage now Sample.empty_chat "Alice" "hi" "text"
                    None None).1) = true
  /\ msg_time (addMessage now Sample.empty_chat "Alice" "hi" "text"
                 None None).1 = "07:05".
Proof.
  intros now.
  assert (Hh : getHours now < 24) by (simpl; lia).
  assert (Hm : getMinutes now < 60) by (simpl; lia).
  split_and!; [exact Hh | exact Hm | | reflexivity].
  exact (addMessage_time_format now Sample.empty_chat "Alice" "hi" "text"
           None None Hh Hm).
Defined.

(** ** What every reachable world satisfies *)

(** X16. In every world the calls reach from a fresh manager over an empty
    store, across sessions and whether the calls returned or threw, the
    friends and the sent requests are deduplicated by key, in memory and
    in every stored profile: no key is on such a list twice. *)
Theorem friends_and_sent_stay_deduplicated w :
  reachable w ->
  NoDup (key <$> friends (chatManager w))
  /\ NoDup (key <$> sentFriendRequests (chatManager w))
  /\ (forall k d,
        stored w k = Some d ->
        NoDup (key <$> default [] (ud_friends d))
        /\ NoDup (key <$> default [] (ud_sentFriendRequests d)))
  /\ (forall k,
        count_key k (friends (chatManager w)) <= 1
        /\ count_key k (sentFriendRequests (chatManager w)) <= 1).
Proof.
  intros Hw. destruct (reachable_consistent w Hw) as (Hf & Hs & Hstored).
  split_and!; [done | done | exact Hstored |].
  intros k. by apply reachable_count_key.
Qed.

(** Alice loads, adds Bob twice, sends him two requests. *)
Lemma friends_and_sent_stay_deduplicated_witness :
  let w0 := Sample.alice Sample.new_manager (Sample.roomy ∅) in
  let w :=
    call (SendFriendRequest Sample.noon Sample.noon Sample.bob_key
            Sample.alice_key "Alice")
      (call (SendFriendRequest Sample.noon Sample.noon Sample.bob_key
               Sample.alice_key "Alice")
         (call (AddFriend Sample.noon Sample.bob_key "Robert")
            (call (AddFriend Sample.noon Sample.bob_key "Bob")
               (call (LoadChats Sample.alice_key) w0)))) in
  reachable w
  /\ key <$> friends (chatManager w) = [Sample.bob_key]
  /\ key <$> sentFriendRequests (chatManager w) = [Sample.bob_key]
  /\ NoDup (key <$> friends (chatManager w)).
Proof.
  intros w0 w.
  assert (Hw : reachable w).
  { do 5 apply reachable_call. apply reachable_new. }
  destruct (friends_and_sent_stay_deduplicated w Hw) as (Hf & _).
  split_and!; [exact Hw | vm_compute; reflexivity | vm_compute; reflexivity
              | exact Hf].
Defined.

Lemma objects_filter_sublist (p : option Chat -> bool) cs :
  objects (List.filter p cs) `sublist_of` objects cs.
Proof.
  unfold objects. induction cs as [| c cs IH]; simpl; [done |].
  destruct (p c), c as [c |]; simpl;
    [by apply sublist_skip | done | by apply sublist_cons | done].
Qed.

Lemma capped_initializeChats : Forall capped initializeChats.
Proof. apply Forall_singleton. unfold capped. simpl. lia. Qed.

Lemma addMessage_capped now chat author text type fileData fileName :
  capped (addMessage now chat author text type fileData fileName).2.
Proof. unfold capped. rewrite addMessage_messages, slice_last_length. lia. Qed.

Lemma saveUserData_bounded userKey userData w :
  (forall cs, ud_chats userData = Some cs -> Forall capped (objects cs)) ->
  bounded w -> bounded (world (saveUserData userKey userData w)).
Proof.
  intros Hdoc (Hm & Hstored). unfold saveUserData, bounded. run.
  destruct (quota _ _ _ _); simpl; [| done].
  split; [done |]. intros k d cs.
  destruct (decide (userKey = k)) as [-> | Hne].
  - rewrite lookup_insert_eq. intros [= <-]. apply Hdoc.
  - rewrite lookup_insert_ne by done. apply Hstored.
Qed.

Lemma call_bounded m w : bounded w -> bounded (call m w).
Proof.
  intros Hw.
  destruct m as [uk | uk un | dn now nm ds | dn now fk fn ck
                | i now au tx ty fd fl | now fk fn
                | now1 now2 tk ck cn | now1 now2 rk rn ck cn | rk];
    unfold call.
  - (* loadChats *)
    destruct Hw as (Hm & Hstored). unfold loadChats, bounded. run.
    destruct (items (localStorage w) !! uk) as [d |] eqn:Hd; run;
      [| split; [apply capped_initializeChats | done]].
    split; [| done].
    case_decide; [apply capped_initializeChats |].
    destruct (ud_chats d) as [cs |] eqn:Hcs; simpl.
    + apply Forall_forall. intros c Hc.
      eapply elem_of_sublist in Hc; [| apply objects_filter_sublist].
      specialize (Hstored _ _ _ Hd Hcs).
      by eapply Forall_forall in Hstored.
    + apply capped_initializeChats.
  - (* saveChats *)
    unfold saveChats, mbind, M_bind, this.
    apply saveUserData_bounded; [| done].
    simpl. intros cs [= <-]. rewrite objects_Some. by destruct Hw.
  - (* createChat *)
    destruct Hw as (Hm & Hstored). unfold createChat, bounded. run.
    split; [| done]. unfold JS.push. apply Forall_app. split; [done |].
    apply Forall_singleton. unfold capped. simpl. lia.
  - (* createPrivateChat *)
    destruct Hw as (Hm & Hstored). unfold createPrivateChat, bounded. run.
    split; [| done]. unfold JS.push. apply Forall_app. split; [done |].
    apply Forall_singleton. unfold capped. simpl. lia.
  - (* addMessage *)
    destruct Hw as (Hm & Hstored). unfold addMessageTo, bounded. run.
    destruct (chats (chatManager w) !! i) as [chat |] eqn:Hchat; simpl;
      [| done].
    split; [| done]. apply Forall_insert; [done |].
    apply (addMessage_capped now chat au tx ty fd fl).
  - (* addFriend *)
    pose proof (addFriend_frame now fk fn w) as (Hc & _ & _ & Hs & _).
    destruct Hw as (Hm & Hstored). unfold bounded, stored.
    rewrite Hc, Hs. done.
  - (* sendFriendRequest *)
    destruct (decide (tk ∈ key <$> sentFriendRequests (chatManager w)))
      as [Hin | Hnin].
    + by rewrite sendFriendRequest_already.
    + destruct Hw as (Hm & Hstored).
      unfold sendFriendRequest. run.
      apply some_key_false in Hnin as Hsome. rewrite Hsome.
      set (w1 := set_chatManager _ w).
      assert (Hw1 : bounded w1) by done.
      destruct (items (localStorage w) !! tk) as [t |] eqn:Ht; [| done].
      pose proof (saveUserData_bounded tk
        {| ud_username := ud_username t; ud_chats := ud_chats t;
           ud_friends := ud_friends t;
           ud_friendRequests :=
             Some (JS.push {| key := ck; username := cn;
                              stamp := sentAt (toISOString now2) |}
                     (default [] (ud_friendRequests t)));
           ud_sentFriendRequests := ud_sentFriendRequests t |} w1) as Hsave.
      run. destruct (saveUserData _ _ w1) as [[[] | e] w2]; simpl in *;
        apply Hsave; try done; intros cs Hcs; by eapply Hstored.
  - (* acceptFriendRequest *)
    pose proof (addFriend_frame now1 rk rn w) as (Hc & _ & _ & Hs & b & Hb).
    unfold acceptFriendRequest, mbind, M_bind.
    destruct (addFriend now1 rk rn w) as [o w1].
    run. subst o. destruct Hw as (Hm & Hstored).
    set (w2 := set_chatManager _ w1).
    assert (Hw2 : bounded w2).
    { unfold bounded, stored. simpl. rewrite Hc, Hs. done. }
    destruct (items (localStorage w1) !! rk) as [r |] eqn:Hr; [| done].
    apply (saveUserData_bounded rk _ w2); [| done].
    simpl. intros cs Hcs. destruct Hw2 as [_ Hstored2].
    by eapply Hstored2.
  - (* rejectFriendRequest *) by destruct Hw.
Qed.

(** X17. In every world the calls reach from a fresh manager over an empty
    store, no chat holds more than 1000 messages, in memory or in any
    stored profile. *)
Theorem chats_stay_capped w :
  reachable w ->
  (forall chat,
     chat ∈ chats (chatManager w) -> length (messages_of chat) <= 1000)
  /\ (forall k d cs chat,
        stored w k = Some d -> ud_chats d = Some cs -> Some chat ∈ cs ->
        length (messages_of chat) <= 1000).
Proof.
  intros Hw.
  assert (Hb : bounded w).
  { induction Hw as [quota0 user userKey | m w _ IH | w user userKey _ IH].
    - split; [constructor |]. intros k d cs. unfold stored. simpl.
      by rewrite lookup_empty.
    - by apply call_bounded.
    - destruct IH as [_ Hstored]. split; [constructor | done]. }
  destruct Hb as [Hm Hstored]. split.
  - intros chat Hin. by eapply Forall_forall in Hm.
  - intros k d cs chat Hd Hcs Hin.
    specialize (Hstored k d cs Hd Hcs).
    eapply Forall_forall in Hstored; [done |].
    unfold objects. apply list_elem_of_omap. by exists (Some chat).
Qed.

(** Alice creates a chat, writes 1001 messages into it and saves. *)
Lemma chats_stay_capped_witness :
  let w0 := Sample.alice Sample.new_manager (Sample.roomy ∅) in
  let w1 :=
    call (CreateChat 1709294700000 Sample.noon "Team" EmptyString)
      (call (LoadChats Sample.alice_key) w0) in
  let w2 :=
    foldl
      (fun w n =>
         call (AddMessage 1 Sample.noon "Alice" (pretty n) "text" None None)
           w)
      w1 (seq 0 1001) in
  let w := call (SaveChats Sample.alice_key "Alice") w2 in
  reachable w
  /\ (length <$> (messages_of <$> chats (chatManager w))) = [0; 1000]
  /\ forall chat,
       chat ∈ chats (chatManager w) -> length (messages_of chat) <= 1000.
Proof.
  intros w0 w1 w2 w.
  assert (Hfold : forall (l : list nat) v, reachable v ->
    reachable
      (foldl
         (fun w (n : nat) =>
            call (AddMessage 1 Sample.noon "Alice" (pretty n) "text" None
                    None) w) v l)).
  { induction l as [| n l IH]; intros v Hv; simpl; [done |].
    apply IH.
    by apply (reachable_call
                (AddMessage 1 Sample.noon "Alice" (pretty n) "text" None
                   None)). }
  assert (Hw : reachable w).
  { apply reachable_call, Hfold. do 2 apply reachable_call.
    apply reachable_new. }
  destruct (chats_stay_capped w Hw) as [Hm _].
  split_and!; [exact Hw | vm_compute; reflexivity | exact Hm].
Defined.

(** ** From one profile to the other *)

(** X18. A delivered request shows on the target's side: whoever then
    loads the target's profile, in whatever session over that store, has
    the sender's entry, with the sender's key and name, at the end of the
    incoming requests. *)
Theorem request_reaches_the_target
  now1 now2 targetKey selfKey selfUsername w t :
  targetKey ∉ key <$> sentFriendRequests (chatManager w) ->
  stored w targetKey = Some t ->
  (forall doc,
     quota (localStorage w) (items (localStorage w)) targetKey doc = true) ->
  let r := sendFriendRequest now1 now2 targetKey selfKey selfUsername w in
  forall w2,
    localStorage w2 = localStorage (world r) ->
    friendRequests (chatManager (world (loadChats targetKey w2))) =
      default [] (ud_friendRequests t) ++
        [ {| key := selfKey; username := selfUsername;
             stamp := sentAt (toISOString now2) |} ].
Proof.
  intros Hnin Hsome Hquota r w2 Hstore.
  destruct (sendFriendRequest_delivered now1 now2 targetKey selfKey
              selfUsername w t Hnin Hsome (Hquota _)) as (_ & _ & Hdoc).
  fold r in Hdoc. unfold stored in Hdoc. rewrite <- Hstore in Hdoc.
  unfold loadChats. run.
  destruct (items (localStorage w2) !! targetKey) as [d |]; [| done].
  simpl in *. injection Hdoc as Hdoc. by rewrite Hdoc.
Qed.

Lemma request_reaches_the_target_witness :
  let w := Sample.alice_and_bob in
  let r :=
    sendFriendRequest Sample.noon Sample.noon Sample.bob_key
      Sample.alice_key "Alice" w in
  let bob_session :=
    {| chatManager := Sample.new_manager;
       localStorage := localStorage (world r);
       currentUser := Some "Bob"; currentUserKey := Some Sample.bob_key;
       ui := [] |} in
  (Sample.bob_key ∉ key <$> sentFriendRequests (chatManager w))
  /\ stored w Sample.bob_key = Some Sample.bob_data
  /\ friendRequests
       (chatManager (world (loadChats Sample.bob_key bob_session)))
     = [ {| key := Sample.alice_key; username := "Alice";
            stamp := sentAt (toISOString Sample.noon) |} ].
Proof.
  intros w r bob_session.
  assert (Hnin : Sample.bob_key ∉ key <$> sentFriendRequests (chatManager w))
    by apply not_elem_of_nil.
  assert (Hsome : stored w Sample.bob_key = Some Sample.bob_data)
    by reflexivity.
  split_and!; [exact Hnin | exact Hsome |].
  apply (request_reaches_the_target Sample.noon Sample.noon Sample.bob_key
           Sample.alice_key "Alice" w Sample.bob_data Hnin Hsome
           ltac:(intros doc; reflexivity) bob_session eq_refl).
Defined.

(** X19. An acceptance shows on the requester's side: after an
    [acceptFriendRequest] that returned, whoever loads the requester's
    profile over that store has the accepting user among the friends and
    not among the sent requests. *)
Theorem acceptance_reaches_the_requester
  now1 now2 requesterKey requesterUsername selfKey selfUsername w d :
  stored w requesterKey = Some d ->
  let r :=
    acceptFriendRequest now1 now2 requesterKey requesterUsername
      selfKey selfUsername w in
  outcome r = Returned tt ->
  forall w2,
    localStorage w2 = localStorage (world r) ->
    let m := chatManager (world (loadChats requesterKey w2)) in
    selfKey ∈ key <$> friends m
    /\ (selfKey ∉ key <$> sentFriendRequests m).
Proof.
  intros Hsome r Hret w2 Hstore m. subst m r.
  pose proof (addFriend_frame now1 requesterKey requesterUsername w)
    as (_ & _ & _ & Hs & b & Hb).
  unfold acceptFriendRequest, mbind, M_bind in *.
  destruct (addFriend now1 requesterKey requesterUsername w) as [o w1].
  run. subst o. rewrite Hs, Hsome in *. simpl in *.
  unfold saveUserData in *. simpl in *. rewrite Hs in *.
  destruct (quota (localStorage w) (items (localStorage w)) requesterKey _);
    [| done].
  simpl in *. unfold loadChats. run. rewrite Hstore. simpl.
  rewrite lookup_insert_eq. simpl. split.
  - destruct (JS.some _ (default [] (ud_friends d))) eqn:Hknown.
    + by apply some_key_true.
    + unfold JS.push. rewrite fmap_app. apply elem_of_app. right.
      apply list_elem_of_here.
  - destruct (ud_sentFriendRequests d) as [sent |]; simpl.
    + apply filter_other_key_absent.
    + apply not_elem_of_nil.
Qed.

Lemma acceptance_reaches_the_requester_witness :
  let w := Sample.alice_with_request in
  let r :=
    acceptFriendRequest Sample.noon Sample.noon Sample.bob_key "Bob"
      Sample.alice_key "Alice" w in
  let bob_session :=
    {| chatManager := Sample.new_manager;
       localStorage := localStorage (world r);
       currentUser := Some "Bob"; currentUserKey := Some Sample.bob_key;
       ui := [] |} in
  let m := chatManager (world (loadChats Sample.bob_key bob_session)) in
  stored w Sample.bob_key = Some Sample.bob_data
  /\ outcome r = Returned tt
  /\ key <$> default [] (ud_sentFriendRequests Sample.bob_data)
     = [Sample.alice_key]
  /\ Sample.alice_key ∈ key <$> friends m
  /\ (Sample.alice_key ∉ key <$> sentFriendRequests m).
Proof.
  intros w r bob_session m.
  assert (Hsome : stored w Sample.bob_key = Some Sample.bob_data)
    by reflexivity.
  assert (Hret : outcome r = Returned tt) by reflexivity.
  destruct (acceptance_reaches_the_requester Sample.noon Sample.noon
              Sample.bob_key "Bob" Sample.alice_key "Alice" w
              Sample.bob_data Hsome Hret bob_session eq_refl)
    as [Hfriend Hsent].
  split_and!; [exact Hsome | exact Hret | reflexivity | exact Hfriend
              | exact Hsent].
Defined.

(** ** Requests through the controller *)

(** X20. [sendFriendRequestByName] refuses with one alert, and with
    manager, store and session untouched, in three cases: no stored
    profile carries the name (or the one found has the empty key); the
    profile found is the user's own; a request to the profile found is on
    the sent list already. *)
Theorem sendFriendRequestByName_refusals now1 now2 username w found :
  outcome (getUserKeyByUsername username w) = Returned found ->
  let r := MMessengerApp.sendFriendRequestByName now1 now2 username w in
  (found = None \/ found = Some EmptyString ->
   r = (Returned tt, emit (Alert "Пользователь не найден!") w))
  /\ (forall k,
        found = Some k -> k <> EmptyString ->
        k = MMessengerApp.text_of (currentUserKey w) ->
        r = (Returned tt,
             emit (Alert "Нельзя отправить заявку самому себе!") w))
  /\ (forall k,
        found = Some k -> k <> EmptyString ->
        k <> MMessengerApp.text_of (currentUserKey w) ->
        k ∈ key <$> sentFriendRequests (chatManager w) ->
        r = (Returned tt,
             emit (Alert "Заявка уже отправлена этому пользователю!") w))
  /\ (forall e,
        chatManager (emit e w) = chatManager w
        /\ localStorage (emit e w) = localStorage w
        /\ currentUser (emit e w) = currentUser w
        /\ currentUserKey (emit e w) = currentUserKey w).
Proof.
  intros Hfound r. subst r.
  unfold MMessengerApp.sendFriendRequestByName, getUserKeyByUsername in *.
  run. injection Hfound as Hfound. rewrite Hfound. split_and!.
  - by intros [-> | ->].
  - intros k -> Hk Hself. simpl.
    rewrite (truthy_string_true _ Hk). simpl.
    by rewrite bool_decide_eq_true_2.
  - intros k -> Hk Hself Hin. simpl.
    rewrite (truthy_string_true _ Hk). simpl.
    rewrite bool_decide_eq_false_2 by done.
    by rewrite sendFriendRequest_already.
  - done.
Qed.

Lemma sendFriendRequestByName_refusals_witness :
  let w := Sample.alice_and_bob in
  outcome (getUserKeyByUsername "Carol" w) = Returned None
  /\ outcome (getUserKeyByUsername "Alice" w) = Returned (Some Sample.alice_key)
  /\ MMessengerApp.sendFriendRequestByName Sample.noon Sample.noon "Carol" w
     = (Returned tt, emit (Alert "Пользователь не найден!") w)
  /\ MMessengerApp.sendFriendRequestByName Sample.noon Sample.noon "Alice" w
     = (Returned tt, emit (Alert "Нельзя отправить заявку самому себе!") w).
Proof.
  intros w.
  assert (Hcarol : outcome (getUserKeyByUsername "Carol" w) = Returned None)
    by (vm_compute; reflexivity).
  assert (Halice :
    outcome (getUserKeyByUsername "Alice" w) = Returned (Some Sample.alice_key))
    by (vm_compute; reflexivity).
  split_and!; [exact Hcarol | exact Halice | |].
  - apply (proj1 (sendFriendRequestByName_refusals Sample.noon Sample.noon
                    "Carol" w None Hcarol)). by left.
  - destruct (sendFriendRequestByName_refusals Sample.noon Sample.noon
                "Alice" w (Some Sample.alice_key) Halice) as (_ & Hself & _).
    apply (Hself Sample.alice_key eq_refl); [discriminate | reflexivity].
Defined.

(** X21. When [sendFriendRequestByName] goes through (the name is found
    under a key that is not the user's own and not on the sent list, the
    user is signed in, the store takes the writes), the request is on
    record on both sides: at the end of the sent list in memory and in
    the user's stored profile under the target's key, and at the end of
    the target's stored incoming requests under the user's key and
    name. *)
Theorem sendFriendRequestByName_records_both_sides
  now1 now2 username userKey user targetKey w :
  outcome (getUserKeyByUsername username w) = Returned (Some targetKey) ->
  targetKey <> EmptyString -> targetKey <> userKey ->
  targetKey ∉ key <$> sentFriendRequests (chatManager w) ->
  currentUserKey w = Some userKey -> currentUser w = Some user ->
  userKey <> EmptyString -> user <> EmptyString ->
  (forall i k doc, quota (localStorage w) i k doc = true) ->
  let r := MMessengerApp.sendFriendRequestByName now1 now2 username w in
  let sent :=
    sentFriendRequests (chatManager w) ++
      [ {| key := targetKey; username := user;
           stamp := sentAt (toISOString now1) |} ] in
  outcome r = Returned tt
  /\ sentFriendRequests (chatManager (world r)) = sent
  /\ (exists own,
        stored (world r) userKey = Some own
        /\ ud_username own = user
        /\ ud_sentFriendRequests own = Some sent)
  /\ (exists t t',
        stored w targetKey = Some t
        /\ ud_username t = username
        /\ stored (world r) targetKey = Some t'
        /\ ud_friendRequests t' =
             Some (default [] (ud_friendRequests t) ++
                     [ {| key := userKey; username := user;
                          stamp := sentAt (toISOString now2) |} ])).
Proof.
  intros Hfound Htarget Hother Hnin Hkey Huser HkeyT HuserT Hquota r sent.
  subst r sent.
  unfold MMessengerApp.sendFriendRequestByName, getUserKeyByUsername in *.
  run. injection Hfound as Hfound.
  pose proof (firstKeyByUsername_Some _ _ _ _ Hfound)
    as (_ & t & Ht & Hname).
  rewrite Hfound. simpl. rewrite (truthy_string_true _ Htarget). simpl.
  rewrite Hkey, Huser. simpl.
  rewrite bool_decide_eq_false_2 by done.
  unfold sendFriendRequest. run.
  apply some_key_false in Hnin. rewrite Hnin, Ht. simpl.
  unfold saveUserData. simpl. rewrite Hquota. simpl.
  unfold MMessengerApp.saveUserData. run. rewrite Hkey, Huser.
  rewrite (truthy_string_true _ HkeyT), (truthy_string_true _ HuserT).
  simpl. rewrite saveChats_run. simpl. rewrite Hquota. simpl.
  split_and!; try done.
  - eexists. rewrite lookup_insert_eq. by split_and!.
  - exists t. eexists. split; [done |]. split; [done |].
    rewrite lookup_insert_ne by done. rewrite lookup_insert_eq.
    by split.
Qed.

Lemma sendFriendRequestByName_records_both_sides_witness :
  let w := Sample.alice_and_bob in
  let r := MMessengerApp.sendFriendRequestByName Sample.noon Sample.noon
             "Bob" w in
  outcome (getUserKeyByUsername "Bob" w) = Returned (Some Sample.bob_key)
  /\ (Sample.bob_key ∉ key <$> sentFriendRequests (chatManager w))
  /\ outcome r = Returned tt
  /\ key <$> sentFriendRequests (chatManager (world r)) = [Sample.bob_key]
  /\ (key <$> default []
        (default None (ud_friendRequests <$> stored (world r) Sample.bob_key)))
     = [Sample.alice_key].
Proof.
  intros w r.
  assert (Hbob :
    outcome (getUserKeyByUsername "Bob" w) = Returned (Some Sample.bob_key))
    by (vm_compute; reflexivity).
  assert (Hnin : Sample.bob_key ∉ key <$> sentFriendRequests (chatManager w))
    by apply not_elem_of_nil.
  destruct (sendFriendRequestByName_records_both_sides Sample.noon
              Sample.noon "Bob" Sample.alice_key "Alice" Sample.bob_key w
              Hbob ltac:(discriminate) ltac:(discriminate) Hnin eq_refl
              eq_refl ltac:(discriminate) ltac:(discriminate)
              ltac:(intros i k doc; reflexivity))
    as (Hret & _).
  split_and!; [exact Hbob | exact Hnin | exact Hret | |];
    vm_compute; reflexivity.
Defined.

(** X22. The controller's [rejectFriendRequest], for a signed-in user
    whose store takes the write, persists the rejection and tells nobody:
    no entry with the requester's key is left in the incoming requests,
    in memory or in the user's stored profile, and every other stored
    profile, the requester's with its sent list among them, is as it
    was. *)
Theorem rejectFriendRequest_persists requesterKey userKey user w :
  currentUserKey w = Some userKey -> currentUser w = Some user ->
  userKey <> EmptyString -> user <> EmptyString ->
  (forall doc,
     quota (localStorage w) (items (localStorage w)) userKey doc = true) ->
  let r := MMessengerApp.rejectFriendRequest requesterKey w in
  outcome r = Returned tt
  /\ (requesterKey ∉ key <$> friendRequests (chatManager (world r)))
  /\ (exists own,
        stored (world r) userKey = Some own
        /\ ud_friendRequests own =
             Some (List.filter
                     (fun req => negb (bool_decide (key req = requesterKey)))
                     (friendRequests (chatManager w)))
        /\ (requesterKey ∉ key <$> default [] (ud_friendRequests own)))
  /\ (forall k, k <> userKey -> stored (world r) k = stored w k).
Proof.
  intros Hkey Huser HkeyT HuserT Hquota r. subst r.
  unfold MMessengerApp.rejectFriendRequest, rejectFriendRequest,
    MMessengerApp.saveUserData.
  run. rewrite Hkey, Huser.
  rewrite (truthy_string_true _ HkeyT), (truthy_string_true _ HuserT).
  simpl. rewrite saveChats_run. simpl. rewrite Hquota. simpl.
  unfold loadChats. run. rewrite lookup_insert_eq. simpl.
  split_and!; try done.
  - apply filter_other_key_absent.
  - eexists. rewrite lookup_insert_eq. split; [done |]. simpl.
    split; [done |]. apply filter_other_key_absent.
  - intros k Hk. by rewrite lookup_insert_ne.
Qed.

Lemma rejectFriendRequest_persists_witness :
  let w := Sample.alice_with_request in
  let r := MMessengerApp.rejectFriendRequest Sample.bob_key w in
  outcome r = Returned tt
  /\ friendRequests (chatManager w) <> []
  /\ friendRequests (chatManager (world r)) = []
  /\ stored (world r) Sample.bob_key = Some Sample.bob_data
  /\ key <$> default [] (ud_sentFriendRequests Sample.bob_data)
     = [Sample.alice_key].
Proof.
  intros w r.
  destruct (rejectFriendRequest_persists Sample.bob_key Sample.alice_key
              "Alice" w eq_refl eq_refl ltac:(discriminate)
              ltac:(discriminate) ltac:(intros doc; reflexivity))
    as (Hret & _ & _ & Hothers).
  split_and!; [exact Hret | discriminate | vm_compute; reflexivity | |
               reflexivity].
  etransitivity; [apply Hothers; discriminate | reflexivity].
Defined.

(** X23. The controller's [acceptFriendRequest], for a signed-in user, a
    requester with a stored profile under another key and a store that
    takes the writes, makes the two friends on both sides and settles the
    request on both sides: the requester is among the user's friends and
    gone from the user's incoming requests, in memory and in the user's
    stored profile; the user is among the friends and gone from the sent
    requests of the requester's stored profile; and the user is told. *)
Theorem acceptFriendRequest_makes_friends
  now1 now2 requesterKey requesterUsername userKey user w d :
  currentUserKey w = Some userKey -> currentUser w = Some user ->
  userKey <> EmptyString -> user <> EmptyString ->
  requesterKey <> userKey ->
  stored w requesterKey = Some d ->
  (forall i k doc, quota (localStorage w) i k doc = true) ->
  let r :=
    MMessengerApp.acceptFriendRequest now1 now2 requesterKey
      requesterUsername w in
  outcome r = Returned tt
  /\ requesterKey ∈ key <$> friends (chatManager (world r))
  /\ (requesterKey ∉ key <$> friendRequests (chatManager (world r)))
  /\ (exists own,
        stored (world r) userKey = Some own
        /\ ud_friends own = Some (friends (chatManager (world r)))
        /\ ud_friendRequests own
           = Some (friendRequests (chatManager (world r))))
  /\ (exists d',
        stored (world r) requesterKey = Some d'
        /\ userKey ∈ key <$> default [] (ud_friends d')
        /\ (userKey ∉ key <$> default [] (ud_sentFriendRequests d')))
  /\ last (ui (world r)) =
       Some (Alert (requesterUsername +:+ " добавлен в друзья!")).
Proof.
  intros Hkey Huser HkeyT HuserT Hother Hsome Hquota r. subst r.
  pose proof (addFriend_present now1 requesterKey requesterUsername w)
    as Hpresent.
  assert (Hadd : exists fs,
    (addFriend now1 requesterKey requesterUsername w).2 =
      set_chatManager (set_friends fs (chatManager w)) w
    /\ (exists b,
          (addFriend now1 requesterKey requesterUsername w).1 = Returned b)
    /\ requesterKey ∈ key <$> fs).
  { destruct (decide (requesterKey ∈ key <$> friends (chatManager w)))
      as [Hin | Hnin].
    - exists (friends (chatManager w)). rewrite addFriend_known by done.
      simpl. split; [by destruct w as [[] ? ? ? ?] | eauto].
    - eexists. rewrite addFriend_fresh by done. simpl.
      split; [done |]. split; [eauto |].
      rewrite fmap_app. apply elem_of_app. right. apply list_elem_of_here. }
  destruct Hadd as (fs & Hw1 & (b & Hb) & Hfs).
  unfold MMessengerApp.acceptFriendRequest, acceptFriendRequest, mbind,
    M_bind, get. rewrite Hkey, Huser. simpl.
  destruct (addFriend now1 requesterKey requesterUsername w) as [o w1].
  simpl in Hw1, Hb. subst o w1. run. rewrite Hsome. simpl.
  unfold saveUserData. simpl. rewrite Hquota. simpl.
  unfold MMessengerApp.saveUserData. run. rewrite Hkey, Huser.
  rewrite (truthy_string_true _ HkeyT), (truthy_string_true _ HuserT).
  simpl. rewrite saveChats_run. simpl. rewrite Hquota. simpl.
  unfold loadChats. run. rewrite lookup_insert_eq. simpl.
  split_and!; try done.
  - apply filter_other_key_absent.
  - eexists. rewrite lookup_insert_eq. by split_and!.
  - eexists. rewrite lookup_insert_ne by done. rewrite lookup_insert_eq.
    split; [done |]. simpl. split.
    + destruct (JS.some _ (default [] (ud_friends d))) eqn:Hknown.
      * by apply some_key_true.
      * unfold JS.push. rewrite fmap_app. apply elem_of_app. right.
        apply list_elem_of_here.
    + destruct (ud_sentFriendRequests d) as [sent |]; simpl.
      * apply filter_other_key_absent.
      * apply not_elem_of_nil.
  - apply last_snoc.
Qed.

Lemma acceptFriendRequest_makes_friends_witness :
  let w := Sample.alice_with_request in
  let r :=
    MMessengerApp.acceptFriendRequest Sample.noon Sample.noon
      Sample.bob_key "Bob" w in
  stored w Sample.bob_key = Some Sample.bob_data
  /\ outcome r = Returned tt
  /\ key <$> friends (chatManager (world r)) = [Sample.bob_key]
  /\ friendRequests (chatManager (world r)) = []
  /\ (key <$> default []
        (default None (ud_friends <$> stored (world r) Sample.bob_key)))
     = [Sample.alice_key]
  /\ ui (world r) = [Alert "Bob добавлен в друзья!"].
Proof.
  intros w r.
  assert (Hsome : stored w Sample.bob_key = Some Sample.bob_data)
    by reflexivity.
  destruct (acceptFriendRequest_makes_friends Sample.noon Sample.noon
              Sample.bob_key "Bob" Sample.alice_key "Alice" w
              Sample.bob_data eq_refl eq_refl ltac:(discriminate)
              ltac:(discriminate) ltac:(discriminate) Hsome
              ltac:(intros i k doc; reflexivity))
    as (Hret & _).
  split_and!; [exact Hsome | exact Hret | | | |]; vm_compute; reflexivity.
Defined.

(** ** Keys *)

Lemma charAt_chars i :
  i < 62 ->
  exists c, JS.charAt chars i = String c EmptyString
            /\ alphanumeric c = true.
Proof.
  intros Hi.
  assert (Hall :
    forallb
      (fun i =>
         match JS.charAt chars i with
         | String c EmptyString => alphanumeric c
         | _ => false
         end) (seq 0 62) = true) by (vm_compute; reflexivity).
  rewrite forallb_forall in Hall.
  specialize (Hall i ltac:(apply in_seq; lia)).
  destruct (JS.charAt chars i) as [| c [| ? ?]]; [done | eauto | done].
Qed.

Lemma list_ascii_of_append s1 s2 :
  list_ascii_of_string (s1 +:+ s2) =
    list_ascii_of_string s1 ++ list_ascii_of_string s2.
Proof. induction s1 as [| c s1 IH]; simpl; [done |]. by rewrite IH. Qed.

(** X24. Whatever [Math.random] yields, so long as each index computed
    from it is below the length of the alphabet, [generateUniqueKey]
    returns sixteen characters, each a letter or a digit; so a generated
    key is never the empty string. *)
Theorem generateUniqueKey_length random :
  (forall i, i < 16 -> random i < 62) ->
  String.length (generateUniqueKey random) = 16
  /\ Forall (fun c => alphanumeric c = true)
       (list_ascii_of_string (generateUniqueKey random))
  /\ generateUniqueKey random <> EmptyString.
Proof.
  intros Hrandom.
  assert (Hfold : forall l result,
    (forall i, i ∈ l -> random i < 62) ->
    Forall (fun c => alphanumeric c = true) (list_ascii_of_string result) ->
    let key :=
      foldl (fun result i => result +:+ JS.charAt chars (random i))
        result l in
    length (list_ascii_of_string key)
      = length (list_ascii_of_string result) + length l
    /\ Forall (fun c => alphanumeric c = true) (list_ascii_of_string key)).
  { induction l as [| i l IH]; intros result Hl Hres; simpl;
      [split; [lia | done] |].
    destruct (charAt_chars (random i)) as (c & Hc & Halnum);
      [apply Hl, list_elem_of_here |].
    destruct (IH (result +:+ JS.charAt chars (random i))) as [Hlen Hall].
    - intros j Hj. apply Hl. by apply list_elem_of_further.
    - rewrite list_ascii_of_append, Hc. apply Forall_app. split; [done |].
      by apply Forall_singleton.
    - split; [| done]. rewrite Hlen, list_ascii_of_append, Hc, length_app.
      simpl. lia. }
  destruct (Hfold (seq 0 16) EmptyString) as [Hlen Hall].
  { intros i Hi. apply Hrandom. apply list_elem_of_In, in_seq in Hi. lia. }
  { constructor. }
  fold (generateUniqueKey random) in Hlen, Hall.
  assert (H16 : String.length (generateUniqueKey random) = 16).
  { clear Hall. revert Hlen. generalize (generateUniqueKey random).
    intros k. assert (Hk : length (list_ascii_of_string k) = String.length k).
    { induction k as [| c k IH]; simpl; [done |]. by rewrite IH. }
    rewrite Hk. simpl. lia. }
  split_and!; [done | done |]. intros Hempty. by rewrite Hempty in H16.
Qed.

Lemma generateUniqueKey_length_witness :
  let random := fun i => (7 * i + 3) mod 62 in
  (forall i, i < 16 -> random i < 62)
  /\ String.length (generateUniqueKey random) = 16
  /\ generateUniqueKey random = "DKRYfmt07ELSZgnu".
Proof.
  intros random.
  assert (Hrandom : forall i, i < 16 -> random i < 62).
  { intros i _. subst random. cbv beta. apply Nat.mod_upper_bound. lia. }
  split_and!; [exact Hrandom | | vm_compute; reflexivity].
  exact (proj1 (generateUniqueKey_length random Hrandom)).
Defined.

(** ** Trimming twice *)

Lemma strip_prefix_Some p s s' :
  JS.strip_prefix p s = Some s' <-> s = p ++ s'.
Proof.
  revert s. induction p as [| a p IH]; intros s; simpl.
  - split; [by intros [= ->] | by intros ->].
  - destruct s as [| b s]; [split; [done | discriminate] |].
    case_decide as Hab.
    + subst b. rewrite IH. split; [by intros -> | by intros [= ->]].
    + split; [done | intros [= -> _]; done].
Qed.

Lemma strip_one_Some ws s s' :
  JS.strip_one ws s = Some s' -> exists p, p ∈ ws /\ s = p ++ s'.
Proof.
  induction ws as [| p ws IH]; simpl; [done |].
  destruct (JS.strip_prefix p s) as [s0 |] eqn:Hp.
  - intros [= <-]. exists p. split; [apply list_elem_of_here |].
    by apply strip_prefix_Some.
  - intros (q & Hq & Hs)%IH. exists q.
    split; [by apply list_elem_of_further | done].
Qed.

Lemma strip_one_None ws s :
  JS.strip_one ws s = None <-> forall p s', p ∈ ws -> s <> p ++ s'.
Proof.
  induction ws as [| p ws IH]; simpl.
  - split; [intros _ p s' Hin; by apply elem_of_nil in Hin | done].
  - destruct (JS.strip_prefix p s) as [s0 |] eqn:Hp.
    + split; [done |]. intros Hall. apply strip_prefix_Some in Hp.
      destruct (Hall p s0); [apply list_elem_of_here | done].
    + rewrite IH. split.
      * intros Hall q s' [-> | Hq]%elem_of_cons; [| by apply Hall].
        intros Hs. apply strip_prefix_Some in Hs. congruence.
      * intros Hall q s' Hq. apply Hall. by apply list_elem_of_further.
Qed.

Lemma strip_leading_fixed fuel ws s :
  JS.strip_one ws s = None -> JS.strip_leading fuel ws s = s.
Proof. intros Hs. destruct fuel; simpl; [done |]. by rewrite Hs. Qed.

(** With fuel for every byte and patterns that are not empty, what
    [strip_leading] returns is a suffix of its argument that starts with
    no pattern. *)
Lemma strip_leading_done fuel ws s :
  Forall (fun p => p <> []) ws -> length s <= fuel ->
  JS.strip_one ws (JS.strip_leading fuel ws s) = None
  /\ exists removed, s = removed ++ JS.strip_leading fuel ws s.
Proof.
  intros Hws. revert s. induction fuel as [| fuel IH]; intros s Hlen.
  - destruct s; [| simpl in Hlen; lia]. simpl. split; [| by exists []].
    apply strip_one_None. intros p s' Hp Hs.
    rewrite Forall_forall in Hws. specialize (Hws p Hp).
    destruct p; [done | discriminate].
  - simpl. destruct (JS.strip_one ws s) as [s' |] eqn:Hs.
    + apply strip_one_Some in Hs as (p & Hp & ->).
      rewrite Forall_forall in Hws. pose proof (Hws p Hp) as Hne.
      destruct (IH s') as (Hnone & removed & Hrem).
      { rewrite length_app in Hlen. destruct p; [done |]. simpl in Hlen. lia. }
      split; [done |]. exists (p ++ removed).
      rewrite <- app_assoc. by rewrite <- Hrem.
    + split; [done | by exists []].
Qed.

Lemma whitespace_nonempty : Forall (fun p => p <> []) JS.whitespace.
Proof. repeat (constructor; [discriminate |]). constructor. Qed.

Lemma whitespace_reversed_nonempty :
  Forall (fun p => p <> []) (reverse <$> JS.whitespace).
Proof. repeat (constructor; [discriminate |]). constructor. Qed.

Lemma string_of_list_ascii_inv l :
  list_ascii_of_string (string_of_list_ascii l) = l.
Proof. apply list_ascii_of_string_of_list_ascii. Qed.

(** X25. Trimming is idempotent.  The controller's [createChat] trims the
    name and the manager's trims it again, so the chat it appends (also
    when the save then fails) is named by the form field trimmed once. *)
Theorem createChat_trims_once dateNow now nameInput descInput w :
  JS.trim nameInput <> EmptyString ->
  JS.trim (JS.trim nameInput) = JS.trim nameInput
  /\ let r := MMessengerApp.createChat dateNow now nameInput descInput w in
     outcome r = Returned tt
     /\ last (chats (chatManager (world r))) =
          Some {| chat_id := Some dateNow;
                  chat_name := Some (JS.trim nameInput);
                  chat_description := Some (JS.trim descInput);
                  chat_type := None;
                  chat_participants := None;
                  chat_messages := Some [];
                  chat_createdAt := Some (toISOString now) |}.
Proof.
  intros Hname.
  assert (Hidem : forall s, JS.trim (JS.trim s) = JS.trim s).
  { intros s. unfold JS.trim. rewrite string_of_list_ascii_inv.
    set (l := list_ascii_of_string s).
    destruct (strip_leading_done (length l) JS.whitespace l
                whitespace_nonempty ltac:(lia)) as (Hstart & front & Hfront).
    fold (JS.trimStart l) in Hstart, Hfront.
    set (a := JS.trimStart l) in *.
    destruct (strip_leading_done (length a) (reverse <$> JS.whitespace)
                (reverse a) whitespace_reversed_nonempty
                ltac:(by rewrite length_reverse))
      as (Hend & back & Hback).
    set (e := JS.strip_leading (length a) (reverse <$> JS.whitespace)
                (reverse a)) in *.
    assert (Hb : JS.trimEnd a = reverse e) by reflexivity.
    assert (Ha : a = reverse e ++ reverse back).
    { rewrite <- reverse_app, <- Hback. by rewrite reverse_involutive. }
    assert (Hb_start : JS.strip_one JS.whitespace (reverse e) = None).
    { apply strip_one_None. intros p s' Hp Hs.
      rewrite strip_one_None in Hstart.
      apply (Hstart p (s' ++ reverse back) Hp).
      rewrite Ha, Hs. by rewrite <- app_assoc. }
    rewrite Hb. f_equal.
    unfold JS.trimStart at 1. rewrite strip_leading_fixed by done.
    unfold JS.trimEnd. rewrite reverse_involutive.
    by rewrite strip_leading_fixed. }
  split; [apply Hidem |]. intros r. subst r.
  unfold MMessengerApp.createChat.
  rewrite (truthy_string_true _ Hname). simpl.
  unfold try_catch, createChat, MMessengerApp.saveUserData, JS.push. run.
  rewrite Hidem.
  destruct (currentUserKey w) as [uk |], (currentUser w) as [un |]; simpl;
    try (split; [done | apply last_snoc]).
  destruct (JS.truthy_string uk && JS.truthy_string un); simpl;
    try (split; [done | apply last_snoc]).
  rewrite saveChats_run. simpl.
  destruct (quota _ _ _ _); simpl; split; try done; apply last_snoc.
Qed.

Lemma createChat_trims_once_witness :
  let w := Sample.alice Sample.loaded_manager (Sample.full ∅) in
  let r :=
    MMessengerApp.createChat 1709294700000 Sample.noon " Team " EmptyString
      w in
  JS.trim " Team " <> EmptyString
  /\ last (chats (chatManager (world r))) = Some Sample.empty_chat.
Proof.
  intros w r.
  assert (Hname : JS.trim " Team " <> EmptyString)
    by (vm_compute; discriminate).
  destruct (createChat_trims_once 1709294700000%Z Sample.noon " Team "
              EmptyString w Hname) as (_ & _ & Hlast).
  split; [exact Hname |].
  etransitivity; [exact Hlast | vm_compute; reflexivity].
Defined.
